(** * Round-lifecycle reconciliation engine of the dice display client

    A shallow embedding of the client's event handlers (the module-level
    variables of the main script, the [GameConfig] object it mutates, the
    text of the DOM nodes it writes and the browser's timer table) as
    functions on one explicit [State], followed by the properties of the
    round state machine, the countdown scheduler, the snapshot path and the
    reconnect policy.

    Modelling conventions.
    - Timestamps and durations are integer milliseconds ([Z]).  The two
      quotients the countdown computes ([remaining / duration]) are exact
      rationals ([Q]) instead of IEEE doubles.
    - [Date.now()] is read once per handler: every handler takes the local
      clock [clk] of the instant it runs at.
    - A value of type [number | null] (or an optional field) is an
      [option Z]; JavaScript truthiness of such a value is [truthy].
    - An array of numbers is a [list (option Z)]: [None] is a hole
      ([null]/[undefined]); an index past the end reads as [None] too.
    - Pending callbacks ([setTimeout], [setInterval],
      [requestAnimationFrame]) live in the table [timers] under the handle
      the browser returned; cancelling removes the entry, firing runs the
      closure that was stored.
    - Calls into Three.js (mesh rotation, rendering loop) and the wall clock
      widget only draw and are outside the model.  What the model keeps of
      them is what reaches the state machine: for a target that is not one of
      the six faces the tables [faceQuaternions] and [faceRotations] have no
      entry, and [die.quaternion.copy(undefined)] ([createDice],
      [updateDiceToValues]) and [faceRotations[v].x] ([rollDie]) throw. *)

From Stdlib Require Import ZArith QArith Lqa List String Bool Lia DecimalString.
Import ListNotations.
Open Scope Z_scope.

Set Warnings "-notation-for-abbreviation".

(** ** Values *)

Inductive GameStateT : Type := idle | waiting | countdown | rolling | result.

Inductive HandleModeT : Type := raf | timeout.

(** [EventSource.readyState]. *)
Inductive ReadyState : Type := CONNECTING | OPEN | CLOSED.

Definition GameStateT_eqb (a b : GameStateT) : bool :=
  match a, b with
  | idle, idle | waiting, waiting | countdown, countdown
  | rolling, rolling | result, result => true
  | _, _ => false
  end.

(** JavaScript truthiness of a [number | null]. *)
Definition truthy (v : option Z) : bool :=
  match v with
  | Some z => negb (z =? 0)
  | None => false
  end.

(** [a ?? b]. *)
Definition nullish {A : Type} (a : option A) (b : A) : A :=
  match a with
  | Some x => x
  | None => b
  end.

Notation "a ?? b" := (nullish a b) (at level 61, right associativity).

(** [v && now < v] for a [v : number | null]. *)
Definition before (now : Z) (v : option Z) : bool :=
  match v with
  | Some z => negb (z =? 0) && (now <? z)
  | None => false
  end.

(** [arr[i]] for an array of numbers. *)
Definition arr_get (arr : list (option Z)) (i : nat) : option Z :=
  match nth_error arr i with
  | Some v => v
  | None => None
  end.

(** [v || 1]. *)
Definition or_one (v : option Z) : Z :=
  match v with
  | Some z => if z =? 0 then 1 else z
  | None => 1
  end.

(** [String(n)] for an integer. *)
Definition string_of_Z (n : Z) : string := NilZero.string_of_int (Z.to_int n).

(** [Math.ceil(a / b)] for integers [a] and [b > 0]. *)
Definition ceil_div (a b : Z) : Z := - ((- a) / b).

(** ** Payloads *)

Record LastOutcome : Type := {
  lo_diceValues : list (option Z);
  lo_updatedAt : Z;
  lo_roundId : option string
}.

Record LastOutcomeEvent : Type := {
  loe_diceValues : list (option Z);
  loe_updatedAt : Z;
  loe_roundId : option string;
  loe_serverNow : Z
}.

Record RoundScheduledEvent : Type := {
  rse_startAt : Z;
  rse_endAt : Z;
  rse_totalMs : option Z;
  rse_remainingMs : option Z;
  rse_serverNow : Z
}.

Record RoundStartedEvent : Type := {
  rst_roundId : string;
  rst_startAt : Z;
  rst_endAt : Z;
  rst_totalMs : option Z;
  rst_remainingMs : option Z;
  rst_serverNow : Z
}.

Record RoundResultEvent : Type := {
  rre_roundId : string;
  rre_diceValues : list (option Z);
  rre_serverNow : Z
}.

Record RoundCancelledEvent : Type := {
  rce_serverNow : Z
}.

Record Round : Type := {
  r_id : string;
  r_startAt : Z;
  r_endAt : Z;
  r_diceValues : option (list (option Z));
  r_totalMs : option Z;
  r_remainingMs : option Z
}.

Inductive SnapshotResponse : Type :=
| SCHEDULED (startAt endAt : Z) (lastOutcome : LastOutcome) (serverNow : Z)
            (totalMs remainingMs : option Z)
| STARTED_OR_REVEALED (round : Round) (lastOutcome : LastOutcome) (serverNow : Z)
| IDLE (lastOutcome : LastOutcome) (serverNow : Z).

Definition snap_serverNow (d : SnapshotResponse) : Z :=
  match d with
  | SCHEDULED _ _ _ n _ _ => n
  | STARTED_OR_REVEALED _ _ n => n
  | IDLE _ n => n
  end.

Definition snap_lastOutcome (d : SnapshotResponse) : LastOutcome :=
  match d with
  | SCHEDULED _ _ lo _ _ _ => lo
  | STARTED_OR_REVEALED _ lo _ => lo
  | IDLE lo _ => lo
  end.

(** ** Browser timers *)

(** The closures the script hands to the browser. *)
Inductive Callback : Type :=
| CbConnect
    (* () => connectSSE() *)
| CbCountdown (targetTime : Z) (label : string) (totalDuration : Z)
    (* () => animateCountdownToTime(targetTime, label, totalDuration) *)
| CbWaiting
    (* the fallback closure of showWaitingState *)
| CbShowResult (diceValues : list (option Z))
    (* () => showResult(diceValues) *)
| CbTimeSync.
    (* the periodic time reference pull *)

Inductive TimerKind : Type :=
| ByFrame
| ByTimeout (delay : Z)
| ByInterval (period : Z).

Record Timer : Type := {
  t_id : nat;
  t_kind : TimerKind;
  t_cb : Callback
}.

Definition isFrame (k : TimerKind) : bool :=
  match k with
  | ByFrame => true
  | _ => false
  end.

Definition isInterval (k : TimerKind) : bool :=
  match k with
  | ByInterval _ => true
  | _ => false
  end.

Definition isCountdownCb (cb : Callback) : bool :=
  match cb with
  | CbCountdown _ _ _ => true
  | _ => false
  end.

Definition isWaitingCb (cb : Callback) : bool :=
  match cb with
  | CbWaiting => true
  | _ => false
  end.

Definition isConnectCb (cb : Callback) : bool :=
  match cb with
  | CbConnect => true
  | _ => false
  end.

(** ** The state

    The module-level variables of the script, the fields of [GameConfig] it
    assigns, the page and the browser, grouped by the component that owns
    them.  [gameState s], [timers s], ... read a variable and
    [set_gameState v s], ... assign it, whatever its group. *)

(** The round state machine's variables. *)
Record RoundVars : Type := {
  rnd_gameState : GameStateT;
  rnd_scheduledStartAt : option Z;
  rnd_scheduledEndAt : option Z;
  rnd_countdownTotalMs : option Z;
  rnd_cancelledUntil : option Z;
  rnd_serverTimeOffset : Z;
  rnd_documentHidden : bool
}.

(** The stored outcome and the dice that show it. *)
Record Outcome : Type := {
  out_targetValues : list (option Z);
  out_currentRoundId : option string;
  out_dice : list Z;
  out_rollCount : Z
}.

(** The text and classes the script writes to the page. *)
Record Dom : Type := {
  dom_gameOverlayHidden : bool;
  dom_resultOverlayVisible : bool;
  dom_strokeDashoffset : Q;
  dom_stroke : string;
  dom_countdownText : string;
  dom_statusText : string;
  dom_resultSymbols : list Z;
  dom_resultLabel : string;
  dom_nextRoundText : string
}.

(** The browser's table of pending callbacks and the handles the script keeps. *)
Record Handles : Type := {
  tm_timers : list Timer;
  tm_nextHandle : nat;
  tm_countdownHandle : option nat;
  tm_countdownHandleMode : option HandleModeT;
  tm_waitingStateTimeout : option nat
}.

(** The event channel. *)
Record Conn : Type := {
  conn_eventSource : option nat;
  conn_reconnectAttempts : Z;
  conn_isConnected : bool;
  conn_connectionStatus : string;
  conn_sources : list ReadyState
}.

(** The snapshot request. *)
Record Fetch : Type := {
  fetch_isFetchingSnapshot : bool;
  fetch_snapshotFetches : nat
}.

(** The periodic time reference. *)
Record Sync : Type := {
  sync_timeSyncInterval : option nat;
  sync_timeSyncFetches : nat
}.

(** What belongs to the transport: channel, snapshot request, time reference. *)
Record Env : Type := {
  env_conn : Conn;
  env_fetch : Fetch;
  env_sync : Sync;
  env_assetsPending : bool
    (* [init] is still waiting for [preloadAssets] *)
}.

Record State : Type := {
  rnd : RoundVars;
  out : Outcome;
  dom : Dom;
  tm : Handles;
  env : Env
}.

Notation conn s := (env_conn (env s)).
Notation fetch s := (env_fetch (env s)).
Notation sync s := (env_sync (env s)).
Notation gameState s := (rnd_gameState (rnd s)).
Notation scheduledStartAt s := (rnd_scheduledStartAt (rnd s)).
Notation scheduledEndAt s := (rnd_scheduledEndAt (rnd s)).
Notation countdownTotalMs s := (rnd_countdownTotalMs (rnd s)).
Notation cancelledUntil s := (rnd_cancelledUntil (rnd s)).
Notation serverTimeOffset s := (rnd_serverTimeOffset (rnd s)).
Notation documentHidden s := (rnd_documentHidden (rnd s)).
Notation targetValues s := (out_targetValues (out s)).
Notation currentRoundId s := (out_currentRoundId (out s)).
Notation dice s := (out_dice (out s)).
Notation rollCount s := (out_rollCount (out s)).
Notation gameOverlayHidden s := (dom_gameOverlayHidden (dom s)).
Notation resultOverlayVisible s := (dom_resultOverlayVisible (dom s)).
Notation strokeDashoffset s := (dom_strokeDashoffset (dom s)).
Notation stroke s := (dom_stroke (dom s)).
Notation countdownText s := (dom_countdownText (dom s)).
Notation statusText s := (dom_statusText (dom s)).
Notation resultSymbols s := (dom_resultSymbols (dom s)).
Notation resultLabel s := (dom_resultLabel (dom s)).
Notation nextRoundText s := (dom_nextRoundText (dom s)).
Notation timers s := (tm_timers (tm s)).
Notation nextHandle s := (tm_nextHandle (tm s)).
Notation countdownHandle s := (tm_countdownHandle (tm s)).
Notation countdownHandleMode s := (tm_countdownHandleMode (tm s)).
Notation waitingStateTimeout s := (tm_waitingStateTimeout (tm s)).
Notation eventSource s := (conn_eventSource (env_conn (env s))).
Notation reconnectAttempts s := (conn_reconnectAttempts (env_conn (env s))).
Notation isConnected s := (conn_isConnected (env_conn (env s))).
Notation connectionStatus s := (conn_connectionStatus (env_conn (env s))).
Notation sources s := (conn_sources (env_conn (env s))).
Notation isFetchingSnapshot s := (fetch_isFetchingSnapshot (env_fetch (env s))).
Notation snapshotFetches s := (fetch_snapshotFetches (env_fetch (env s))).
Notation timeSyncInterval s := (sync_timeSyncInterval (env_sync (env s))).
Notation timeSyncFetches s := (sync_timeSyncFetches (env_sync (env s))).
Notation assetsPending s := (env_assetsPending (env s)).

(** Assignment: the record rebuilt with one field replaced. *)
Definition rnd_set_gameState (v : GameStateT) (r : RoundVars) : RoundVars :=
  {| rnd_gameState := v; rnd_scheduledStartAt := rnd_scheduledStartAt r; rnd_scheduledEndAt := rnd_scheduledEndAt r; rnd_countdownTotalMs := rnd_countdownTotalMs r; rnd_cancelledUntil := rnd_cancelledUntil r; rnd_serverTimeOffset := rnd_serverTimeOffset r; rnd_documentHidden := rnd_documentHidden r |}.
Definition rnd_set_scheduledStartAt (v : option Z) (r : RoundVars) : RoundVars :=
  {| rnd_gameState := rnd_gameState r; rnd_scheduledStartAt := v; rnd_scheduledEndAt := rnd_scheduledEndAt r; rnd_countdownTotalMs := rnd_countdownTotalMs r; rnd_cancelledUntil := rnd_cancelledUntil r; rnd_serverTimeOffset := rnd_serverTimeOffset r; rnd_documentHidden := rnd_documentHidden r |}.
Definition rnd_set_scheduledEndAt (v : option Z) (r : RoundVars) : RoundVars :=
  {| rnd_gameState := rnd_gameState r; rnd_scheduledStartAt := rnd_scheduledStartAt r; rnd_scheduledEndAt := v; rnd_countdownTotalMs := rnd_countdownTotalMs r; rnd_cancelledUntil := rnd_cancelledUntil r; rnd_serverTimeOffset := rnd_serverTimeOffset r; rnd_documentHidden := rnd_documentHidden r |}.
Definition rnd_set_countdownTotalMs (v : option Z) (r : RoundVars) : RoundVars :=
  {| rnd_gameState := rnd_gameState r; rnd_scheduledStartAt := rnd_scheduledStartAt r; rnd_scheduledEndAt := rnd_scheduledEndAt r; rnd_countdownTotalMs := v; rnd_cancelledUntil := rnd_cancelledUntil r; rnd_serverTimeOffset := rnd_serverTimeOffset r; rnd_documentHidden := rnd_documentHidden r |}.
Definition rnd_set_cancelledUntil (v : option Z) (r : RoundVars) : RoundVars :=
  {| rnd_gameState := rnd_gameState r; rnd_scheduledStartAt := rnd_scheduledStartAt r; rnd_scheduledEndAt := rnd_scheduledEndAt r; rnd_countdownTotalMs := rnd_countdownTotalMs r; rnd_cancelledUntil := v; rnd_serverTimeOffset := rnd_serverTimeOffset r; rnd_documentHidden := rnd_documentHidden r |}.
Definition rnd_set_serverTimeOffset (v : Z) (r : RoundVars) : RoundVars :=
  {| rnd_gameState := rnd_gameState r; rnd_scheduledStartAt := rnd_scheduledStartAt r; rnd_scheduledEndAt := rnd_scheduledEndAt r; rnd_countdownTotalMs := rnd_countdownTotalMs r; rnd_cancelledUntil := rnd_cancelledUntil r; rnd_serverTimeOffset := v; rnd_documentHidden := rnd_documentHidden r |}.
Definition rnd_set_documentHidden (v : bool) (r : RoundVars) : RoundVars :=
  {| rnd_gameState := rnd_gameState r; rnd_scheduledStartAt := rnd_scheduledStartAt r; rnd_scheduledEndAt := rnd_scheduledEndAt r; rnd_countdownTotalMs := rnd_countdownTotalMs r; rnd_cancelledUntil := rnd_cancelledUntil r; rnd_serverTimeOffset := rnd_serverTimeOffset r; rnd_documentHidden := v |}.
Definition out_set_targetValues (v : list (option Z)) (r : Outcome) : Outcome :=
  {| out_targetValues := v; out_currentRoundId := out_currentRoundId r; out_dice := out_dice r; out_rollCount := out_rollCount r |}.
Definition out_set_currentRoundId (v : option string) (r : Outcome) : Outcome :=
  {| out_targetValues := out_targetValues r; out_currentRoundId := v; out_dice := out_dice r; out_rollCount := out_rollCount r |}.
Definition out_set_dice (v : list Z) (r : Outcome) : Outcome :=
  {| out_targetValues := out_targetValues r; out_currentRoundId := out_currentRoundId r; out_dice := v; out_rollCount := out_rollCount r |}.
Definition out_set_rollCount (v : Z) (r : Outcome) : Outcome :=
  {| out_targetValues := out_targetValues r; out_currentRoundId := out_currentRoundId r; out_dice := out_dice r; out_rollCount := v |}.
Definition dom_set_gameOverlayHidden (v : bool) (r : Dom) : Dom :=
  {| dom_gameOverlayHidden := v; dom_resultOverlayVisible := dom_resultOverlayVisible r; dom_strokeDashoffset := dom_strokeDashoffset r; dom_stroke := dom_stroke r; dom_countdownText := dom_countdownText r; dom_statusText := dom_statusText r; dom_resultSymbols := dom_resultSymbols r; dom_resultLabel := dom_resultLabel r; dom_nextRoundText := dom_nextRoundText r |}.
Definition dom_set_resultOverlayVisible (v : bool) (r : Dom) : Dom :=
  {| dom_gameOverlayHidden := dom_gameOverlayHidden r; dom_resultOverlayVisible := v; dom_strokeDashoffset := dom_strokeDashoffset r; dom_stroke := dom_stroke r; dom_countdownText := dom_countdownText r; dom_statusText := dom_statusText r; dom_resultSymbols := dom_resultSymbols r; dom_resultLabel := dom_resultLabel r; dom_nextRoundText := dom_nextRoundText r |}.
Definition dom_set_strokeDashoffset (v : Q) (r : Dom) : Dom :=
  {| dom_gameOverlayHidden := dom_gameOverlayHidden r; dom_resultOverlayVisible := dom_resultOverlayVisible r; dom_strokeDashoffset := v; dom_stroke := dom_stroke r; dom_countdownText := dom_countdownText r; dom_statusText := dom_statusText r; dom_resultSymbols := dom_resultSymbols r; dom_resultLabel := dom_resultLabel r; dom_nextRoundText := dom_nextRoundText r |}.
Definition dom_set_stroke (v : string) (r : Dom) : Dom :=
  {| dom_gameOverlayHidden := dom_gameOverlayHidden r; dom_resultOverlayVisible := dom_resultOverlayVisible r; dom_strokeDashoffset := dom_strokeDashoffset r; dom_stroke := v; dom_countdownText := dom_countdownText r; dom_statusText := dom_statusText r; dom_resultSymbols := dom_resultSymbols r; dom_resultLabel := dom_resultLabel r; dom_nextRoundText := dom_nextRoundText r |}.
Definition dom_set_countdownText (v : string) (r : Dom) : Dom :=
  {| dom_gameOverlayHidden := dom_gameOverlayHidden r; dom_resultOverlayVisible := dom_resultOverlayVisible r; dom_strokeDashoffset := dom_strokeDashoffset r; dom_stroke := dom_stroke r; dom_countdownText := v; dom_statusText := dom_statusText r; dom_resultSymbols := dom_resultSymbols r; dom_resultLabel := dom_resultLabel r; dom_nextRoundText := dom_nextRoundText r |}.
Definition dom_set_statusText (v : string) (r : Dom) : Dom :=
  {| dom_gameOverlayHidden := dom_gameOverlayHidden r; dom_resultOverlayVisible := dom_resultOverlayVisible r; dom_strokeDashoffset := dom_strokeDashoffset r; dom_stroke := dom_stroke r; dom_countdownText := dom_countdownText r; dom_statusText := v; dom_resultSymbols := dom_resultSymbols r; dom_resultLabel := dom_resultLabel r; dom_nextRoundText := dom_nextRoundText r |}.
Definition dom_set_resultSymbols (v : list Z) (r : Dom) : Dom :=
  {| dom_gameOverlayHidden := dom_gameOverlayHidden r; dom_resultOverlayVisible := dom_resultOverlayVisible r; dom_strokeDashoffset := dom_strokeDashoffset r; dom_stroke := dom_stroke r; dom_countdownText := dom_countdownText r; dom_statusText := dom_statusText r; dom_resultSymbols := v; dom_resultLabel := dom_resultLabel r; dom_nextRoundText := dom_nextRoundText r |}.
Definition dom_set_resultLabel (v : string) (r : Dom) : Dom :=
  {| dom_gameOverlayHidden := dom_gameOverlayHidden r; dom_resultOverlayVisible := dom_resultOverlayVisible r; dom_strokeDashoffset := dom_strokeDashoffset r; dom_stroke := dom_stroke r; dom_countdownText := dom_countdownText r; dom_statusText := dom_statusText r; dom_resultSymbols := dom_resultSymbols r; dom_resultLabel := v; dom_nextRoundText := dom_nextRoundText r |}.
Definition dom_set_nextRoundText (v : string) (r : Dom) : Dom :=
  {| dom_gameOverlayHidden := dom_gameOverlayHidden r; dom_resultOverlayVisible := dom_resultOverlayVisible r; dom_strokeDashoffset := dom_strokeDashoffset r; dom_stroke := dom_stroke r; dom_countdownText := dom_countdownText r; dom_statusText := dom_statusText r; dom_resultSymbols := dom_resultSymbols r; dom_resultLabel := dom_resultLabel r; dom_nextRoundText := v |}.
Definition tm_set_timers (v : list Timer) (r : Handles) : Handles :=
  {| tm_timers := v; tm_nextHandle := tm_nextHandle r; tm_countdownHandle := tm_countdownHandle r; tm_countdownHandleMode := tm_countdownHandleMode r; tm_waitingStateTimeout := tm_waitingStateTimeout r |}.
Definition tm_set_nextHandle (v : nat) (r : Handles) : Handles :=
  {| tm_timers := tm_timers r; tm_nextHandle := v; tm_countdownHandle := tm_countdownHandle r; tm_countdownHandleMode := tm_countdownHandleMode r; tm_waitingStateTimeout := tm_waitingStateTimeout r |}.
Definition tm_set_countdownHandle (v : option nat) (r : Handles) : Handles :=
  {| tm_timers := tm_timers r; tm_nextHandle := tm_nextHandle r; tm_countdownHandle := v; tm_countdownHandleMode := tm_countdownHandleMode r; tm_waitingStateTimeout := tm_waitingStateTimeout r |}.
Definition tm_set_countdownHandleMode (v : option HandleModeT) (r : Handles) : Handles :=
  {| tm_timers := tm_timers r; tm_nextHandle := tm_nextHandle r; tm_countdownHandle := tm_countdownHandle r; tm_countdownHandleMode := v; tm_waitingStateTimeout := tm_waitingStateTimeout r |}.
Definition tm_set_waitingStateTimeout (v : option nat) (r : Handles) : Handles :=
  {| tm_timers := tm_timers r; tm_nextHandle := tm_nextHandle r; tm_countdownHandle := tm_countdownHandle r; tm_countdownHandleMode := tm_countdownHandleMode r; tm_waitingStateTimeout := v |}.
Definition conn_set_eventSource (v : option nat) (r : Conn) : Conn :=
  {| conn_eventSource := v; conn_reconnectAttempts := conn_reconnectAttempts r; conn_isConnected := conn_isConnected r; conn_connectionStatus := conn_connectionStatus r; conn_sources := conn_sources r |}.
Definition conn_set_reconnectAttempts (v : Z) (r : Conn) : Conn :=
  {| conn_eventSource := conn_eventSource r; conn_reconnectAttempts := v; conn_isConnected := conn_isConnected r; conn_connectionStatus := conn_connectionStatus r; conn_sources := conn_sources r |}.
Definition conn_set_isConnected (v : bool) (r : Conn) : Conn :=
  {| conn_eventSource := conn_eventSource r; conn_reconnectAttempts := conn_reconnectAttempts r; conn_isConnected := v; conn_connectionStatus := conn_connectionStatus r; conn_sources := conn_sources r |}.
Definition conn_set_connectionStatus (v : string) (r : Conn) : Conn :=
  {| conn_eventSource := conn_eventSource r; conn_reconnectAttempts := conn_reconnectAttempts r; conn_isConnected := conn_isConnected r; conn_connectionStatus := v; conn_sources := conn_sources r |}.
Definition conn_set_sources (v : list ReadyState) (r : Conn) : Conn :=
  {| conn_eventSource := conn_eventSource r; conn_reconnectAttempts := conn_reconnectAttempts r; conn_isConnected := conn_isConnected r; conn_connectionStatus := conn_connectionStatus r; conn_sources := v |}.
Definition fetch_set_isFetchingSnapshot (v : bool) (r : Fetch) : Fetch :=
  {| fetch_isFetchingSnapshot := v; fetch_snapshotFetches := fetch_snapshotFetches r |}.
Definition fetch_set_snapshotFetches (v : nat) (r : Fetch) : Fetch :=
  {| fetch_isFetchingSnapshot := fetch_isFetchingSnapshot r; fetch_snapshotFetches := v |}.
Definition sync_set_timeSyncInterval (v : option nat) (r : Sync) : Sync :=
  {| sync_timeSyncInterval := v; sync_timeSyncFetches := sync_timeSyncFetches r |}.
Definition sync_set_timeSyncFetches (v : nat) (r : Sync) : Sync :=
  {| sync_timeSyncInterval := sync_timeSyncInterval r; sync_timeSyncFetches := v |}.

Definition over_rnd (f : RoundVars -> RoundVars) (s : State) : State :=
  {| rnd := f (rnd s); out := out s; dom := dom s; tm := tm s; env := env s |}.
Definition over_out (f : Outcome -> Outcome) (s : State) : State :=
  {| rnd := rnd s; out := f (out s); dom := dom s; tm := tm s; env := env s |}.
Definition over_dom (f : Dom -> Dom) (s : State) : State :=
  {| rnd := rnd s; out := out s; dom := f (dom s); tm := tm s; env := env s |}.
Definition over_tm (f : Handles -> Handles) (s : State) : State :=
  {| rnd := rnd s; out := out s; dom := dom s; tm := f (tm s); env := env s |}.
Definition over_env (f : Env -> Env) (s : State) : State :=
  {| rnd := rnd s; out := out s; dom := dom s; tm := tm s; env := f (env s) |}.
Definition over_conn (f : Conn -> Conn) : State -> State :=
  over_env (fun e => {| env_conn := f (env_conn e); env_fetch := env_fetch e; env_sync := env_sync e; env_assetsPending := env_assetsPending e |}).
Definition over_fetch (f : Fetch -> Fetch) : State -> State :=
  over_env (fun e => {| env_conn := env_conn e; env_fetch := f (env_fetch e); env_sync := env_sync e; env_assetsPending := env_assetsPending e |}).
Definition over_sync (f : Sync -> Sync) : State -> State :=
  over_env (fun e => {| env_conn := env_conn e; env_fetch := env_fetch e; env_sync := f (env_sync e); env_assetsPending := env_assetsPending e |}).

Definition set_gameState (v : GameStateT) : State -> State := over_rnd (rnd_set_gameState v).
Definition set_scheduledStartAt (v : option Z) : State -> State := over_rnd (rnd_set_scheduledStartAt v).
Definition set_scheduledEndAt (v : option Z) : State -> State := over_rnd (rnd_set_scheduledEndAt v).
Definition set_countdownTotalMs (v : option Z) : State -> State := over_rnd (rnd_set_countdownTotalMs v).
Definition set_cancelledUntil (v : option Z) : State -> State := over_rnd (rnd_set_cancelledUntil v).
Definition set_serverTimeOffset (v : Z) : State -> State := over_rnd (rnd_set_serverTimeOffset v).
Definition set_documentHidden (v : bool) : State -> State := over_rnd (rnd_set_documentHidden v).
Definition set_targetValues (v : list (option Z)) : State -> State := over_out (out_set_targetValues v).
Definition set_currentRoundId (v : option string) : State -> State := over_out (out_set_currentRoundId v).
Definition set_dice (v : list Z) : State -> State := over_out (out_set_dice v).
Definition set_rollCount (v : Z) : State -> State := over_out (out_set_rollCount v).
Definition set_gameOverlayHidden (v : bool) : State -> State := over_dom (dom_set_gameOverlayHidden v).
Definition set_resultOverlayVisible (v : bool) : State -> State := over_dom (dom_set_resultOverlayVisible v).
Definition set_strokeDashoffset (v : Q) : State -> State := over_dom (dom_set_strokeDashoffset v).
Definition set_stroke (v : string) : State -> State := over_dom (dom_set_stroke v).
Definition set_countdownText (v : string) : State -> State := over_dom (dom_set_countdownText v).
Definition set_statusText (v : string) : State -> State := over_dom (dom_set_statusText v).
Definition set_resultSymbols (v : list Z) : State -> State := over_dom (dom_set_resultSymbols v).
Definition set_resultLabel (v : string) : State -> State := over_dom (dom_set_resultLabel v).
Definition set_nextRoundText (v : string) : State -> State := over_dom (dom_set_nextRoundText v).
Definition set_timers (v : list Timer) : State -> State := over_tm (tm_set_timers v).
Definition set_nextHandle (v : nat) : State -> State := over_tm (tm_set_nextHandle v).
Definition set_countdownHandle (v : option nat) : State -> State := over_tm (tm_set_countdownHandle v).
Definition set_countdownHandleMode (v : option HandleModeT) : State -> State := over_tm (tm_set_countdownHandleMode v).
Definition set_waitingStateTimeout (v : option nat) : State -> State := over_tm (tm_set_waitingStateTimeout v).
Definition set_eventSource (v : option nat) : State -> State := over_conn (conn_set_eventSource v).
Definition set_reconnectAttempts (v : Z) : State -> State := over_conn (conn_set_reconnectAttempts v).
Definition set_isConnected (v : bool) : State -> State := over_conn (conn_set_isConnected v).
Definition set_connectionStatus (v : string) : State -> State := over_conn (conn_set_connectionStatus v).
Definition set_sources (v : list ReadyState) : State -> State := over_conn (conn_set_sources v).
Definition set_isFetchingSnapshot (v : bool) : State -> State := over_fetch (fetch_set_isFetchingSnapshot v).
Definition set_snapshotFetches (v : nat) : State -> State := over_fetch (fetch_set_snapshotFetches v).
Definition set_timeSyncInterval (v : option nat) : State -> State := over_sync (sync_set_timeSyncInterval v).
Definition set_timeSyncFetches (v : nat) : State -> State := over_sync (sync_set_timeSyncFetches v).
Definition set_assetsPending (v : bool) : State -> State :=
  over_env (fun e => {| env_conn := env_conn e; env_fetch := env_fetch e; env_sync := env_sync e; env_assetsPending := v |}).

(** ** GameConfig constants *)

Definition rollDuration : Z := 2500.
Definition reconnectDelay : Z := 2000.
Definition maxReconnectAttempts : Z := 10.

(** ** Browser primitives *)

Definition addTimer (k : TimerKind) (cb : Callback) (s : State) : nat * State :=
  let h := nextHandle s in
  (h, set_nextHandle (S h)
        (set_timers (timers s ++ [{| t_id := h; t_kind := k; t_cb := cb |}]) s)).

Definition setTimeout (cb : Callback) (delay : Z) : State -> nat * State :=
  addTimer (ByTimeout delay) cb.

Definition setInterval (cb : Callback) (period : Z) : State -> nat * State :=
  addTimer (ByInterval period) cb.

Definition requestAnimationFrame (cb : Callback) : State -> nat * State :=
  addTimer ByFrame cb.

Definition cancelAnimationFrame (h : nat) (s : State) : State :=
  set_timers
    (filter (fun t => negb ((t_id t =? h)%nat && isFrame (t_kind t))) (timers s)) s.

(** [clearTimeout] and [clearInterval] share one table of handles. *)
Definition clearTimeout (h : nat) (s : State) : State :=
  set_timers
    (filter (fun t => negb ((t_id t =? h)%nat && negb (isFrame (t_kind t)))) (timers s)) s.

Definition clearInterval : nat -> State -> State := clearTimeout.

(** ** Server time *)

Definition getServerTime (clk : Z) (s : State) : Z := clk + serverTimeOffset s.

Definition updateServerTimeOffset (clk serverNow : Z) (s : State) : State :=
  set_serverTimeOffset (serverNow - clk) s.

Definition startPeriodicTimeSync (s : State) : State :=
  let s := match timeSyncInterval s with
           | Some h => clearInterval h s
           | None => s
           end in
  let (h, s) := setInterval CbTimeSync 30000 s in
  set_timeSyncInterval (Some h) s.

Definition stopPeriodicTimeSync (s : State) : State :=
  match timeSyncInterval s with
  | Some h => set_timeSyncInterval None (clearInterval h s)
  | None => s
  end.

(** ** Connection status *)

Definition updateConnectionStatus (connected : bool) (message : option string)
    (s : State) : State :=
  let s := set_isConnected connected s in
  let fallback := if connected then "Connected"%string else "Disconnected"%string in
  let text := match message with
              | Some m => if String.eqb m EmptyString then fallback else m
              | None => fallback
              end in
  set_connectionStatus text s.

(** ** Countdown frames and the waiting state *)

Definition clearCountdownFrame (s : State) : State :=
  let s := match countdownHandle s with
           | Some h =>
               match countdownHandleMode s with
               | Some raf => cancelAnimationFrame h s
               | _ => clearTimeout h s
               end
           | None => s
           end in
  let s := set_countdownHandle None s in
  set_countdownHandleMode None s.

Definition queueCountdownFrame (targetTime : Z) (label : string) (totalDuration : Z)
    (s : State) : State :=
  let s := clearCountdownFrame s in
  if documentHidden s then
    let s := set_countdownHandleMode (Some timeout) s in
    let (h, s) := setTimeout (CbCountdown targetTime label totalDuration) 100 s in
    set_countdownHandle (Some h) s
  else
    let s := set_countdownHandleMode (Some raf) s in
    let (h, s) := requestAnimationFrame (CbCountdown targetTime label totalDuration) s in
    set_countdownHandle (Some h) s.

Definition cancelCountdown (s : State) : State :=
  let s := clearCountdownFrame s in
  let s := match waitingStateTimeout s with
           | Some h => set_waitingStateTimeout None (clearTimeout h s)
           | None => s
           end in
  set_countdownTotalMs None s.

Definition buildResultSymbols (diceValues : list (option Z)) (s : State) : State :=
  let s := set_resultSymbols [] s in
  fold_left
    (fun s i =>
       match arr_get diceValues i with
       | Some value =>
           if (1 <=? value) && (value <=? 6)
           then set_resultSymbols (resultSymbols s ++ [value]) s
           else s
       | None => s
       end)
    (seq 0 6) s.

Definition showLastOutcome (diceValues : list (option Z)) (s : State) : State :=
  let s := set_gameState result s in
  let s := set_gameOverlayHidden true s in
  let s := buildResultSymbols diceValues s in
  let s := set_resultLabel "Last Result" s in
  let s := set_resultOverlayVisible true s in
  set_nextRoundText "Waiting for next round..." s.

Definition showResult (diceValues : list (option Z)) (s : State) : State :=
  let s := set_gameState result s in
  let s := buildResultSymbols diceValues s in
  let s := set_resultLabel "Round Result" s in
  let s := set_resultOverlayVisible true s in
  set_nextRoundText "Waiting for next round..." s.

Definition showWaitingState (clk : Z) (message : string) (s : State) : State :=
  let s := match waitingStateTimeout s with
           | Some h => set_waitingStateTimeout None (clearTimeout h s)
           | None => s
           end in
  let s := set_gameState waiting s in
  let s := set_gameOverlayHidden false s in
  let s := set_resultOverlayVisible false s in
  let s := set_countdownTotalMs None s in
  let s := set_strokeDashoffset 0%Q s in
  let s := set_stroke "#4ade80" s in
  let s := set_countdownText "..." s in
  let s := set_statusText message s in
  let isWaitingForActiveRound := before (getServerTime clk s) (scheduledEndAt s) in
  if negb isWaitingForActiveRound then
    let (h, s) := setTimeout CbWaiting 2000 s in
    set_waitingStateTimeout (Some h) s
  else s.

(** The closure [showWaitingState] leaves with [setTimeout]. *)
Definition waitingStateTimeoutFired (clk : Z) (s : State) : State :=
  let s := set_waitingStateTimeout None s in
  if GameStateT_eqb (gameState s) waiting
     && negb (before (getServerTime clk s) (scheduledEndAt s))
  then
    let s := set_gameOverlayHidden true s in
    showLastOutcome (targetValues s) s
  else s.

(** ** The countdown scheduler *)

(** The three quantities [animateCountdownToTime] computes on a tick, as
    functions of the target and of the server time [now] of the tick. *)
Definition remainingAt (targetTime now : Z) : Z := Z.max 0 (targetTime - now).

Definition durationAt (totalDuration : option Z) (targetTime now : Z) : Z :=
  let baseDuration := totalDuration ?? (targetTime - now) in
  Z.max 1 (Z.max baseDuration (remainingAt targetTime now)).

Definition progressAt (totalDuration : option Z) (targetTime now : Z) : Q :=
  (1 - inject_Z (remainingAt targetTime now)
       / inject_Z (durationAt totalDuration targetTime now))%Q.

Definition animateCountdownToTime (clk targetTime : Z) (label : string)
    (totalDuration : option Z) (s : State) : State :=
  let now := getServerTime clk s in
  let remaining := remainingAt targetTime (getServerTime clk s) in
  let duration := durationAt totalDuration targetTime now in
  let progress := progressAt totalDuration targetTime now in
  let circumference := 283%Q in
  let offset := (circumference * progress)%Q in
  let s := set_strokeDashoffset offset s in
  let secondsLeft := ceil_div remaining 1000 in
  let s := set_countdownText (string_of_Z (Z.max 0 secondsLeft)) s in
  let remainingRatio := (inject_Z remaining / inject_Z duration)%Q in
  let s := set_stroke (if negb (Qle_bool remainingRatio (1 # 2)) then "#4ade80"
                       else if negb (Qle_bool remainingRatio (1 # 4)) then "#facc15"
                       else "#ef4444") s in
  let s := set_statusText (if (secondsLeft <=? 3) && (0 <? secondsLeft)
                           then "Get ready..." else label) s in
  if 0 <? remaining then queueCountdownFrame targetTime label duration s
  else
    let s := clearCountdownFrame s in
    if GameStateT_eqb (gameState s) countdown
    then showWaitingState clk "Waiting for result..." s
    else s.

Definition startScheduledCountdown (clk : Z) (totalMs remainingMs : option Z)
    (s : State) : State :=
  if negb (truthy (scheduledStartAt s)) then s
  else if before (getServerTime clk s) (cancelledUntil s)
  then showWaitingState clk "Waiting for next round..." s
  else
    let remaining :=
      remainingMs ?? Z.max 0 ((scheduledStartAt s ?? 0) - getServerTime clk s) in
    let total := Z.max 1 (totalMs ?? countdownTotalMs s ?? remaining) in
    let s := set_countdownTotalMs (Some total) s in
    let targetTime := getServerTime clk s + remaining in
    let s := set_gameState countdown s in
    let s := set_gameOverlayHidden false s in
    let s := set_resultOverlayVisible false s in
    let s := set_statusText "Round starting soon..." s in
    animateCountdownToTime clk targetTime "Round starting in" (Some total) s.

Definition startRoundCountdown (clk : Z) (totalMs remainingMs : option Z)
    (s : State) : State :=
  if negb (truthy (scheduledEndAt s)) then s
  else if before (getServerTime clk s) (cancelledUntil s)
  then showWaitingState clk "Waiting for next round..." s
  else
    let s := clearCountdownFrame s in
    let remaining :=
      remainingMs ?? Z.max 0 ((scheduledEndAt s ?? 0) - getServerTime clk s) in
    let total := Z.max 1 (totalMs ?? countdownTotalMs s ?? remaining) in
    let s := set_countdownTotalMs (Some total) s in
    let targetTime := getServerTime clk s + remaining in
    let s := set_gameState countdown s in
    let s := set_gameOverlayHidden false s in
    let s := set_resultOverlayVisible false s in
    let s := set_statusText "Rolling soon..." s in
    animateCountdownToTime clk targetTime "Result in" (Some total) s.

(** ** Dice *)

(** The keys of [faceRotations], and so of [faceQuaternions], which is built
    from its entries.  For any other key the table gives [undefined]:
    [die.quaternion.copy(undefined)] and [faceRotations[v].x] are
    [TypeError]s. *)
Definition isFace (v : Z) : bool := (1 <=? v) && (v <=? 6).

(** Six dice, each created showing [GameConfig.targetValues[i] || 1] and
    pushed once [die.quaternion.copy(faceQuaternions[..])] has returned: when
    the value is not a face the call throws and the loop stops with the dice
    pushed so far.  The flag tells whether [createDice] returned. *)
Definition createDice (s : State) : State * bool :=
  fold_left
    (fun (acc : State * bool) i =>
       let (s, returned) := acc in
       if returned then
         let targetValue := or_one (arr_get (targetValues s) i) in
         if isFace targetValue then (set_dice (dice s ++ [targetValue]) s, true)
         else (s, false)
       else acc)
    (seq 0 6) (s, true).

(** [dice.forEach((die, index) => die.userData.targetValue = values[index] || 1)]. *)
Definition retargetDice (values : list (option Z)) (s : State) : State :=
  set_dice (map (fun index => or_one (arr_get values index)) (seq 0 (List.length (dice s)))) s.

(** The loop of [updateDiceToValues] from the die at [index] on: the die
    gets [values[index] || 1] and is turned to it by
    [die.quaternion.copy(faceQuaternions[targetValue])]; when the target is
    not a face that call throws, and the dice after this one stay as they
    were.  The flag tells whether the loop returned. *)
Fixpoint showTargets (values : list (option Z)) (index : nat) (ds : list Z)
    : list Z * bool :=
  match ds with
  | [] => ([], true)
  | _ :: rest =>
      let targetValue := or_one (arr_get values index) in
      if isFace targetValue then
        let (rest', returned) := showTargets values (S index) rest in
        (targetValue :: rest', returned)
      else (targetValue :: rest, false)
  end.

(** [GameConfig.targetValues = values] follows the loop: it is not reached
    when the loop throws.  The flag tells whether the call returned. *)
Definition updateDiceToValues (values : list (option Z)) (s : State) : State * bool :=
  let (ds, returned) := showTargets values 0 (dice s) in
  let s := set_dice ds s in
  if returned then (set_targetValues values s, true) else (s, false).

(** [rollCount++], then [rollDie] on each die.  [rollDie] reads
    [faceRotations[targetValue].x] before it animates: for a target that is
    not a key of the table the read is a [TypeError], which leaves
    [rollAllDice].  The flag tells whether the call returned. *)
Definition rollAllDice (s : State) : State * bool :=
  let s := set_rollCount (rollCount s + 1) s in
  (s, forallb isFace (dice s)).

(** When [rollAllDice] throws, the exception leaves [startRolling] too, and
    no caller does anything after the call: the [round.result] listener ends
    with it, and in [fetchSnapshotAndSync] the [catch] only logs. *)
Definition startRolling (diceValues : list (option Z)) (s : State) : State :=
  let s := cancelCountdown s in
  let s := match waitingStateTimeout s with
           | Some h => set_waitingStateTimeout None (clearTimeout h s)
           | None => s
           end in
  let s := set_gameState rolling s in
  let s := set_gameOverlayHidden true s in
  let s := set_resultOverlayVisible false s in
  let s := retargetDice diceValues s in
  let (s, returned) := rollAllDice s in
  if returned then
    let (_, s) :=
      setTimeout (CbShowResult diceValues)
        (rollDuration + Z.of_nat (List.length (dice s)) * 100 + 500) s in
    s
  else s.

(** ** Snapshot reconciliation *)

(** The call, up to the first [await]: the guard, the flag, the request. *)
Definition fetchSnapshotAndSync (s : State) : State :=
  if isFetchingSnapshot s then s
  else
    let s := set_isFetchingSnapshot true s in
    set_snapshotFetches (S (snapshotFetches s)) s.

(** The body of the [try] block once the response has been decoded.  An
    exception ([updateDiceToValues], [startRolling]) leaves the block at the
    call that throws; the [catch] only logs. *)
Definition syncSnapshot (clk : Z) (data : SnapshotResponse) (s : State) : State :=
  let s := updateServerTimeOffset clk (snap_serverNow data) s in
  let now := snap_serverNow data in
  let s := set_targetValues (lo_diceValues (snap_lastOutcome data)) s in
  let s := set_currentRoundId (lo_roundId (snap_lastOutcome data)) s in
  let (s, returned) := updateDiceToValues (targetValues s) s in
  if negb returned then s else
  match data with
  | SCHEDULED startAt endAt _ _ totalMs remainingMs0 =>
      if before now (cancelledUntil s) then
        let s := cancelCountdown s in
        showWaitingState clk "Waiting for next round..." s
      else
        let s := set_scheduledStartAt (Some startAt) s in
        let s := set_scheduledEndAt (Some endAt) s in
        let remainingMs := remainingMs0 ?? Z.max 0 (startAt - now) in
        if endAt <=? now then showLastOutcome (targetValues s) s
        else if startAt <=? now then
          startRoundCountdown clk (Some (totalMs ?? (endAt - startAt)))
            (Some (Z.max 0 (endAt - now))) s
        else
          startScheduledCountdown clk (Some (totalMs ?? remainingMs)) (Some remainingMs) s
  | STARTED_OR_REVEALED round _ _ =>
      if before now (cancelledUntil s) then
        let s := cancelCountdown s in
        showWaitingState clk "Round cancelled" s
      else
        let s := set_scheduledStartAt (Some (r_startAt round)) s in
        let s := set_scheduledEndAt (Some (r_endAt round)) s in
        let s := set_currentRoundId (Some (r_id round)) s in
        match r_diceValues round with
        | Some values =>
            let isCancelledResult := (List.length values =? 0)%nat in
            if isCancelledResult then
              let s := cancelCountdown s in
              showWaitingState clk "Waiting for next round..." s
            else
              let s := set_targetValues values s in
              let (s, returned) := updateDiceToValues (targetValues s) s in
              if negb returned then s
              else if r_endAt round <=? now then showResult (targetValues s) s
              else startRolling (targetValues s) s
        | None =>
            if now <? r_endAt round then
              startRoundCountdown clk
                (Some (r_totalMs round ?? (r_endAt round - r_startAt round)))
                (Some (r_remainingMs round ?? Z.max 0 (r_endAt round - now))) s
            else showWaitingState clk "Waiting for result..." s
        end
  | IDLE _ _ => showLastOutcome (targetValues s) s
  end.

(** The rest of the function after the [await]s: [res = None] is a failed
    request (network error, a status that is not ok, a body that is not
    JSON), which the [catch] logs; the [finally] block runs in every case. *)
Definition fetchSnapshotAndSync_resume (clk : Z) (res : option SnapshotResponse)
    (s : State) : State :=
  let s := match res with
           | Some data => syncSnapshot clk data s
           | None => s
           end in
  set_isFetchingSnapshot false s.

(** ** The event channel *)

Fixpoint set_nth {A : Type} (i : nat) (x : A) (l : list A) : list A :=
  match l, i with
  | [], _ => []
  | _ :: l', O => x :: l'
  | y :: l', S i' => y :: set_nth i' x l'
  end.

Definition readyState (src : nat) (s : State) : option ReadyState :=
  nth_error (sources s) src.

Definition set_readyState (src : nat) (r : ReadyState) (s : State) : State :=
  set_sources (set_nth src r (sources s)) s.

(** [new EventSource(url)]: a new object, connecting; the handlers the script
    attaches to it are [onopen], [onerror] and the five listeners below. *)
Definition connectSSE (s : State) : State :=
  let s := updateConnectionStatus false (Some "Connecting..."%string) s in
  let src := List.length (sources s) in
  let s := set_sources (sources s ++ [CONNECTING]) s in
  set_eventSource (Some src) s.

Definition scheduleReconnect (s : State) : State :=
  if maxReconnectAttempts <=? reconnectAttempts s then
    updateConnectionStatus false (Some "Connection failed"%string) s
  else
    let s := set_reconnectAttempts (reconnectAttempts s + 1) s in
    let delay := reconnectDelay * Z.min (reconnectAttempts s) 5 in
    let s :=
      updateConnectionStatus false
        (Some ("Reconnecting in " ++ string_of_Z (ceil_div delay 1000) ++ "s...")%string) s in
    let (_, s) := setTimeout CbConnect delay s in
    s.

Definition reconnect (s : State) : State :=
  let s := match eventSource s with
           | Some src => set_readyState src CLOSED s
           | None => s
           end in
  let s := set_reconnectAttempts 0 s in
  connectSSE s.

Definition onopen (s : State) : State :=
  let s := set_reconnectAttempts 0 s in
  let s := updateConnectionStatus true None s in
  let s := fetchSnapshotAndSync s in
  startPeriodicTimeSync s.

Definition onerror (s : State) : State :=
  let s := updateConnectionStatus false (Some "Connection lost"%string) s in
  match eventSource s with
  | Some src =>
      match readyState src s with
      | Some CLOSED => scheduleReconnect s
      | _ => s
      end
  | None => s
  end.

Definition onLastOutcome (clk : Z) (data : LastOutcomeEvent) (s : State) : State :=
  let s := updateServerTimeOffset clk (loe_serverNow data) s in
  let s := set_targetValues (loe_diceValues data) s in
  let s := set_currentRoundId (loe_roundId data) s in
  let (s, returned) := updateDiceToValues (loe_diceValues data) s in
  if negb returned then s
  else if GameStateT_eqb (gameState s) idle
          || (GameStateT_eqb (gameState s) waiting && negb (truthy (scheduledEndAt s)))
  then showLastOutcome (loe_diceValues data) s
  else s.

Definition onRoundScheduled (clk : Z) (data : RoundScheduledEvent) (s : State) : State :=
  let s := updateServerTimeOffset clk (rse_serverNow data) s in
  let s := set_cancelledUntil None s in
  let s := set_scheduledStartAt (Some (rse_startAt data)) s in
  let s := set_scheduledEndAt (Some (rse_endAt data)) s in
  startScheduledCountdown clk (rse_totalMs data) (rse_remainingMs data) s.

Definition onRoundStarted (clk : Z) (data : RoundStartedEvent) (s : State) : State :=
  let s := updateServerTimeOffset clk (rst_serverNow data) s in
  let s := set_cancelledUntil None s in
  let s := set_currentRoundId (Some (rst_roundId data)) s in
  let s := set_scheduledStartAt (Some (rst_startAt data)) s in
  let s := set_scheduledEndAt (Some (rst_endAt data)) s in
  let s := cancelCountdown s in
  startRoundCountdown clk (rst_totalMs data) (rst_remainingMs data) s.

Definition onRoundResult (clk : Z) (data : RoundResultEvent) (s : State) : State :=
  let s := updateServerTimeOffset clk (rre_serverNow data) s in
  let s := set_targetValues (rre_diceValues data) s in
  let s := set_currentRoundId (Some (rre_roundId data)) s in
  let s := cancelCountdown s in
  startRolling (rre_diceValues data) s.

Definition onRoundCancelled (clk : Z) (data : RoundCancelledEvent) (s : State) : State :=
  let s := updateServerTimeOffset clk (rce_serverNow data) s in
  let now := getServerTime clk s in
  let horizon := scheduledEndAt s ?? scheduledStartAt s ?? (now + 30000) in
  let s := set_cancelledUntil (Some horizon) s in
  let s := cancelCountdown s in
  showWaitingState clk "Waiting for next round..." s.

Definition onVisibilityChange (s : State) : State :=
  if negb (documentHidden s) then fetchSnapshotAndSync s
  else clearCountdownFrame s.

Definition onBeforeUnload (s : State) : State :=
  let s := stopPeriodicTimeSync s in
  let s := match eventSource s with
           | Some src => set_eventSource None (set_readyState src CLOSED s)
           | None => s
           end in
  cancelCountdown s.

(** The rest of [init] once [preloadAssets] has resolved: the scene is
    built, the dice are created and the channel is due in 500 ms.  When
    [createDice] throws, the [catch] of [init] only writes to the loading
    screen, as it does when an asset fails to load. *)
Definition init_resume (s : State) : State :=
  let s := set_assetsPending false s in
  let (s, returned) := createDice s in
  if negb returned then s
  else
    let (_, s) := setTimeout CbConnect 500 s in
    s.

(** ** Dispatch *)

(** A message of the channel: its event name and its body, [None] when the
    body is not JSON (the listener logs and returns). *)
Inductive Message : Type :=
| LastOutcomeMsg (data : option LastOutcomeEvent)
| RoundScheduledMsg (data : option RoundScheduledEvent)
| RoundStartedMsg (data : option RoundStartedEvent)
| RoundResultMsg (data : option RoundResultEvent)
| RoundCancelledMsg (data : option RoundCancelledEvent).

Definition onMessage (clk : Z) (m : Message) (s : State) : State :=
  match m with
  | LastOutcomeMsg (Some data) => onLastOutcome clk data s
  | RoundScheduledMsg (Some data) => onRoundScheduled clk data s
  | RoundStartedMsg (Some data) => onRoundStarted clk data s
  | RoundResultMsg (Some data) => onRoundResult clk data s
  | RoundCancelledMsg (Some data) => onRoundCancelled clk data s
  | _ => s
  end.

Definition runCallback (clk : Z) (cb : Callback) (s : State) : State :=
  match cb with
  | CbConnect => connectSSE s
  | CbCountdown targetTime label totalDuration =>
      animateCountdownToTime clk targetTime label (Some totalDuration) s
  | CbWaiting => waitingStateTimeoutFired clk s
  | CbShowResult diceValues => showResult diceValues s
  | CbTimeSync => set_timeSyncFetches (S (timeSyncFetches s)) s
  end.

(** What the environment can make happen, one handler at a time. *)
Inductive Event : Type :=
| EvAssetsLoaded
| EvTimer (h : nat)
| EvOpen (src : nat)
| EvError (src : nat) (closed : bool)
| EvMessage (src : nat) (m : Message)
| EvSnapshotResponse (res : option SnapshotResponse)
| EvTimeSyncResponse (serverNow : option Z)
| EvVisibilityChange (hidden : bool)
| EvReconnect
| EvBeforeUnload.

Definition fireTimer (clk : Z) (h : nat) (s : State) : option State :=
  match find (fun t => (t_id t =? h)%nat) (timers s) with
  | None => None
  | Some t =>
      let s := if isInterval (t_kind t) then s
               else set_timers (filter (fun t' => negb (t_id t' =? h)%nat) (timers s)) s in
      Some (runCallback clk (t_cb t) s)
  end.

(** One step: [None] when the event cannot occur in [s] (the assets are
    loaded already, no such timer, a closed source, no request outstanding).
    The listeners for [visibilitychange] and [beforeunload] and
    [window.reconnect] are installed when the script starts, so these events
    can occur while the assets are still loading. *)
Definition step (clk : Z) (ev : Event) (s : State) : option State :=
  match ev with
  | EvAssetsLoaded =>
      if assetsPending s then Some (init_resume s) else None
  | EvTimer h => fireTimer clk h s
  | EvOpen src =>
      match readyState src s with
      | Some CONNECTING => Some (onopen (set_readyState src OPEN s))
      | _ => None
      end
  | EvError src closed =>
      match readyState src s with
      | Some CONNECTING | Some OPEN =>
          Some (onerror (set_readyState src (if closed then CLOSED else CONNECTING) s))
      | _ => None
      end
  | EvMessage src m =>
      match readyState src s with
      | Some OPEN => Some (onMessage clk m s)
      | _ => None
      end
  | EvSnapshotResponse res =>
      match snapshotFetches s with
      | S n => Some (fetchSnapshotAndSync_resume clk res (set_snapshotFetches n s))
      | O => None
      end
  | EvTimeSyncResponse res =>
      match timeSyncFetches s with
      | S n =>
          let s := set_timeSyncFetches n s in
          Some (match res with
                | Some serverNow => updateServerTimeOffset clk serverNow s
                | None => s
                end)
      | O => None
      end
  | EvVisibilityChange hidden => Some (onVisibilityChange (set_documentHidden hidden s))
  | EvReconnect => Some (reconnect s)
  | EvBeforeUnload => Some (onBeforeUnload s)
  end.

Fixpoint run (tr : list (Z * Event)) (s : State) : option State :=
  match tr with
  | [] => Some s
  | (clk, ev) :: tr' =>
      match step clk ev s with
      | Some s' => run tr' s'
      | None => None
      end
  end.

(** The state the script starts in, [init] waiting for the assets: no dice
    yet, nothing scheduled, no timer.  The page's markup is not part of the
    sources; the text nodes start empty. *)
Definition init_state : State :=
  {| rnd :=
       {| rnd_gameState := idle;
          rnd_scheduledStartAt := None;
          rnd_scheduledEndAt := None;
          rnd_countdownTotalMs := None;
          rnd_cancelledUntil := None;
          rnd_serverTimeOffset := 0;
          rnd_documentHidden := false |};
     out :=
       {| out_targetValues := [Some 1; Some 2; Some 3; Some 4; Some 5; Some 6];
          out_currentRoundId := None;
          out_dice := [];
          out_rollCount := 0 |};
     dom :=
       {| dom_gameOverlayHidden := false;
          dom_resultOverlayVisible := false;
          dom_strokeDashoffset := 0%Q;
          dom_stroke := EmptyString;
          dom_countdownText := EmptyString;
          dom_statusText := EmptyString;
          dom_resultSymbols := [];
          dom_resultLabel := EmptyString;
          dom_nextRoundText := EmptyString |};
     tm :=
       {| tm_timers := [];
          tm_nextHandle := 0%nat;
          tm_countdownHandle := None;
          tm_countdownHandleMode := None;
          tm_waitingStateTimeout := None |};
     env :=
       {| env_conn :=
            {| conn_eventSource := None;
               conn_reconnectAttempts := 0;
               conn_isConnected := false;
               conn_connectionStatus := EmptyString;
               conn_sources := [] |};
          env_fetch :=
            {| fetch_isFetchingSnapshot := false;
               fetch_snapshotFetches := 0%nat |};
          env_sync :=
            {| sync_timeSyncInterval := None;
               sync_timeSyncFetches := 0%nat |};
          env_assetsPending := true |} |}.

Definition reachable (s : State) : Prop :=
  exists tr, run tr init_state = Some s.

(** * Specification vocabulary *)

(** ** The handlers, part by part

    What the timer handlers do to the browser's table and to the handles the
    script keeps, and what they paint, as functions of that part of the state
    alone. *)

(** The result overlay [buildResultSymbols] leaves: the values of the first six
    entries that are faces of a die. *)
Definition symbolsOf (diceValues : list (option Z)) (idx : list nat) : list Z :=
  flat_map
    (fun i =>
       match arr_get diceValues i with
       | Some value => if (1 <=? value) && (value <=? 6) then [value] else []
       | None => []
       end) idx.

Definition h_add (k : TimerKind) (cb : Callback) (h : Handles) : Handles :=
  tm_set_nextHandle (S (tm_nextHandle h))
    (tm_set_timers
       (tm_timers h ++ [{| t_id := tm_nextHandle h; t_kind := k; t_cb := cb |}]) h).

Definition h_clearCountdownFrame (h : Handles) : Handles :=
  tm_set_countdownHandleMode None
    (tm_set_countdownHandle None
       (match tm_countdownHandle h with
        | Some i =>
            tm_set_timers
              (filter
                 (fun t =>
                    negb ((t_id t =? i)%nat
                          && match tm_countdownHandleMode h with
                             | Some raf => isFrame (t_kind t)
                             | _ => negb (isFrame (t_kind t))
                             end))
                 (tm_timers h)) h
        | None => h
        end)).

Definition h_queueCountdownFrame (hidden : bool) (cb : Callback) (h : Handles) : Handles :=
  let h := h_clearCountdownFrame h in
  tm_set_countdownHandle (Some (tm_nextHandle h))
    (h_add (if hidden then ByTimeout 100 else ByFrame) cb
       (tm_set_countdownHandleMode (Some (if hidden then timeout else raf)) h)).

Definition h_clearWaiting (h : Handles) : Handles :=
  match tm_waitingStateTimeout h with
  | Some i =>
      tm_set_waitingStateTimeout None
        (tm_set_timers
           (filter (fun t => negb ((t_id t =? i)%nat && negb (isFrame (t_kind t))))
              (tm_timers h)) h)
  | None => h
  end.

Definition h_setWaiting (h : Handles) : Handles :=
  tm_set_waitingStateTimeout (Some (tm_nextHandle h)) (h_add (ByTimeout 2000) CbWaiting h).

Definition h_showWaitingState (active : bool) (h : Handles) : Handles :=
  if active then h_clearWaiting h else h_setWaiting (h_clearWaiting h).

(** The page [showWaitingState] leaves. *)
Definition d_waiting (message : string) (d : Dom) : Dom :=
  dom_set_statusText message
    (dom_set_countdownText "..."
       (dom_set_stroke "#4ade80"
          (dom_set_strokeDashoffset 0%Q
             (dom_set_resultOverlayVisible false
                (dom_set_gameOverlayHidden false d))))).

(** The page a countdown tick paints before it decides what comes next. *)
Definition d_tick (total : option Z) (targetTime now : Z) (label : string) (d : Dom) : Dom :=
  let remaining := remainingAt targetTime now in
  let secondsLeft := ceil_div remaining 1000 in
  let remainingRatio :=
    (inject_Z remaining / inject_Z (durationAt total targetTime now))%Q in
  dom_set_statusText
    (if (secondsLeft <=? 3) && (0 <? secondsLeft) then "Get ready..."%string else label)
    (dom_set_stroke
       (if negb (Qle_bool remainingRatio (1 # 2)) then "#4ade80"%string
        else if negb (Qle_bool remainingRatio (1 # 4)) then "#facc15"%string
        else "#ef4444"%string)
       (dom_set_countdownText (string_of_Z (Z.max 0 secondsLeft))
          (dom_set_strokeDashoffset (283 * progressAt total targetTime now)%Q d))).

(** ** Handle discipline and invariants

    Every pending countdown callback is the one [countdownHandle] names, in
    the table [countdownHandleMode] says; every pending waiting fallback is
    the one [waitingStateTimeout] names; handles are fresh and distinct. *)

Definition kindMatches (m : option HandleModeT) (k : TimerKind) : bool :=
  match m, k with
  | Some raf, ByFrame => true
  | Some timeout, ByTimeout _ => true
  | _, _ => false
  end.

Definition isTimeoutKind (k : TimerKind) : bool :=
  match k with
  | ByTimeout _ => true
  | _ => false
  end.

Definition names (v : option nat) (i : nat) : bool :=
  match v with
  | Some j => (j =? i)%nat
  | None => false
  end.

Definition timer_ok (h : Handles) (t : Timer) : bool :=
  (t_id t <? tm_nextHandle h)%nat
  && (negb (isCountdownCb (t_cb t))
      || (names (tm_countdownHandle h) (t_id t)
          && kindMatches (tm_countdownHandleMode h) (t_kind t)))
  && (negb (isWaitingCb (t_cb t))
      || (names (tm_waitingStateTimeout h) (t_id t) && isTimeoutKind (t_kind t))).

Fixpoint distinct (l : list nat) : bool :=
  match l with
  | [] => true
  | x :: l' => negb (existsb (Nat.eqb x) l') && distinct l'
  end.

Definition wfb (h : Handles) : bool :=
  forallb (timer_ok h) (tm_timers h) && distinct (map t_id (tm_timers h)).

Definition wf (h : Handles) : Prop :=
  Forall (fun t => timer_ok h t = true) (tm_timers h) /\ NoDup (map t_id (tm_timers h)).

(** The countdown callbacks that are pending. *)
Definition countdownCbs (h : Handles) : list Callback :=
  filter isCountdownCb (map t_cb (tm_timers h)).

Definition noCountdown (h : Handles) : Prop :=
  Forall (fun t => isCountdownCb (t_cb t) = false) (tm_timers h).

Definition noWaiting (h : Handles) : Prop :=
  Forall (fun t => isWaitingCb (t_cb t) = false) (tm_timers h).

(** The snapshot flag is up exactly while one request is outstanding. *)
Definition fetch_ok (s : State) : Prop :=
  snapshotFetches s = if isFetchingSnapshot s then 1%nat else 0%nat.

(** The targets [values] gives to [n] dice, and whether all of them are
    faces, which is when [updateDiceToValues] returns. *)
Definition targetsOf (values : list (option Z)) (n : nat) : list Z :=
  map (fun index => or_one (arr_get values index)) (seq 0 n).

Definition allFaces (values : list (option Z)) (n : nat) : bool :=
  forallb isFace (targetsOf values n).

(** The dice [updateDiceToValues] leaves. *)
Definition shown (values : list (option Z)) (ds : list Z) : list Z :=
  fst (showTargets values 0 ds).

(** There are no dice while the assets load, and at most six afterwards
    (six when [createDice] returned). *)
Definition dice_ok (s : State) : Prop :=
  (List.length (dice s) <= 6)%nat /\ (assetsPending s = true -> dice s = []).

Definition Inv (s : State) : Prop :=
  wf (tm s) /\ fetch_ok s /\ dice_ok s.

Definition noConnect (h : Handles) : Prop :=
  Forall (fun t => isConnectCb (t_cb t) = false) (tm_timers h).

(** The terminal failure: the assets are loaded, the ceiling is reached,
    every event source ever opened is closed, and no reconnect is pending. *)
Definition terminal (s : State) : Prop :=
  assetsPending s = false /\
  maxReconnectAttempts <= reconnectAttempts s /\
  Forall (fun r => r = CLOSED) (sources s) /\
  noConnect (tm s).

(** ** Example payloads and traces *)

Definition scheduledMsg (startAt endAt serverNow : Z) : Message :=
  RoundScheduledMsg
    (Some {| rse_startAt := startAt; rse_endAt := endAt; rse_totalMs := None;
             rse_remainingMs := None; rse_serverNow := serverNow |}).

Definition cancelledMsg (serverNow : Z) : Message :=
  RoundCancelledMsg (Some {| rce_serverNow := serverNow |}).

(** The state once the assets are loaded: six dice showing
    [GameConfig.targetValues], and [connectSSE] due in 500 ms. *)
Definition loaded_state : State := init_resume init_state.

(** The assets load, the page connects and the channel opens, which sends
    the first snapshot request. *)
Definition trace_open : list (Z * Event) :=
  [(0, EvAssetsLoaded); (0, EvTimer 0); (0, EvOpen 0)].

(** The assets load, the page connects, the channel opens, and at server
    time 0 a round is scheduled to start at 5000 and end at 8000. *)
Definition trace_scheduled : list (Z * Event) :=
  [(0, EvAssetsLoaded); (0, EvTimer 0); (0, EvOpen 0);
   (0, EvMessage 0 (scheduledMsg 5000 8000 0))].

(** After the assets are loaded, [n] event sources in a row fail to
    connect: each reconnect that is due fires and its source closes. *)
Definition trace_failing (n : nat) : list (Z * Event) :=
  (0, EvAssetsLoaded) :: flat_map (fun i => [(0, EvTimer i); (0, EvError i true)]) (seq 0 n).

Definition cancelledRound : Round :=
  {| r_id := "r1"; r_startAt := 5000; r_endAt := 8000; r_diceValues := Some [];
     r_totalMs := None; r_remainingMs := None |}.

Definition noOutcome : LastOutcome :=
  {| lo_diceValues := [Some 1; Some 2; Some 3; Some 4; Some 5; Some 6];
     lo_updatedAt := 0; lo_roundId := None |}.

Definition scheduledSnapshot : SnapshotResponse :=
  SCHEDULED 5000 8000 noOutcome 1000 None None.

(** The waiting fallbacks that are pending. *)
Definition waitingCbs (h : Handles) : list Callback :=
  filter isWaitingCb (map t_cb (tm_timers h)).

(** The server time a payload carries. *)
Definition message_serverNow (m : Message) : option Z :=
  match m with
  | LastOutcomeMsg (Some data) => Some (loe_serverNow data)
  | RoundScheduledMsg (Some data) => Some (rse_serverNow data)
  | RoundStartedMsg (Some data) => Some (rst_serverNow data)
  | RoundResultMsg (Some data) => Some (rre_serverNow data)
  | RoundCancelledMsg (Some data) => Some (rce_serverNow data)
  | _ => None
  end.


(** A snapshot whose last outcome shows 7 on the first die. *)
Definition badOutcome : LastOutcome :=
  {| lo_diceValues := [Some 7; Some 6; Some 5; Some 4; Some 3; Some 2];
     lo_updatedAt := 0; lo_roundId := None |}.

(** * Properties *)

(** ** Lists *)

(** Cancelling timers keeps the handles of the table distinct. *)
Lemma distinct_ids_filter (keep : Timer -> bool) (table : list Timer) :
  NoDup (map t_id table) -> NoDup (map t_id (filter keep table)).
Proof.
  intros Hnd. induction table as [|t table IH]; [exact Hnd|].
  cbn [map filter] in *. apply NoDup_cons_iff in Hnd as [Hfresh Hrest].
  destruct (keep t); [|exact (IH Hrest)].
  cbn [map]. apply NoDup_cons; [|exact (IH Hrest)].
  intros Hin. apply Hfresh.
  apply in_map_iff in Hin as [u [Hu Hin]]. apply filter_In in Hin as [Hin _].
  apply in_map_iff. exists u. split; assumption.
Qed.

Lemma length_set_nth {A : Type} (i : nat) (x : A) (l : list A) :
  List.length (set_nth i x l) = List.length l.
Proof.
  revert i; induction l as [|y l IH]; intros [|i]; cbn; try reflexivity.
  rewrite IH; reflexivity.
Qed.

Lemma set_nth_closed (i : nat) (l : list ReadyState) :
  Forall (fun r => r = CLOSED) l -> Forall (fun r => r = CLOSED) (set_nth i CLOSED l).
Proof.
  intros H; revert i; induction H as [|r l Hr Hl IH]; intros i.
  - destruct i; constructor.
  - destruct i; cbn [set_nth]; constructor; auto.
Qed.
(** ** The dice loop *)

Lemma showTargets_length (values : list (option Z)) (ds : list Z) :
  forall index, List.length (fst (showTargets values index ds)) = List.length ds.
Proof.
  induction ds as [|d ds IH]; intros index; cbn [showTargets]; [reflexivity|].
  destruct (isFace (or_one (arr_get values index))); [|reflexivity].
  specialize (IH (S index)). destruct (showTargets values (S index) ds) as [r b].
  cbn in *. rewrite IH. reflexivity.
Qed.

Lemma showTargets_returned (values : list (option Z)) (ds : list Z) :
  forall index,
    snd (showTargets values index ds)
    = forallb isFace
        (map (fun i => or_one (arr_get values i)) (seq index (List.length ds))).
Proof.
  induction ds as [|d ds IH]; intros index; cbn [showTargets]; [reflexivity|].
  cbn [List.length seq map forallb].
  destruct (isFace (or_one (arr_get values index))); [|reflexivity].
  specialize (IH (S index)). destruct (showTargets values (S index) ds) as [r b].
  cbn in *. exact IH.
Qed.

Lemma showTargets_all (values : list (option Z)) (ds : list Z) :
  forall index,
    snd (showTargets values index ds) = true ->
    fst (showTargets values index ds)
    = map (fun i => or_one (arr_get values i)) (seq index (List.length ds)).
Proof.
  induction ds as [|d ds IH]; intros index; cbn [showTargets]; [reflexivity|].
  cbn [List.length seq map].
  destruct (isFace (or_one (arr_get values index))); [|discriminate].
  specialize (IH (S index)). destruct (showTargets values (S index) ds) as [r b].
  cbn in *. intros Hb. rewrite (IH Hb). reflexivity.
Qed.

Lemma showTargets_again (values : list (option Z)) (ds : list Z) :
  forall index,
    fst (showTargets values index (fst (showTargets values index ds)))
    = fst (showTargets values index ds).
Proof.
  induction ds as [|d ds IH]; intros index; cbn [showTargets]; [reflexivity|].
  destruct (isFace (or_one (arr_get values index))) eqn:E.
  - specialize (IH (S index)). destruct (showTargets values (S index) ds) as [r b].
    cbn [fst showTargets] in *. rewrite E.
    destruct (showTargets values (S index) r) as [r' b']. cbn in *. rewrite IH. reflexivity.
  - cbn [fst showTargets]. rewrite E. reflexivity.
Qed.

Lemma shown_length (values : list (option Z)) (ds : list Z) :
  List.length (shown values ds) = List.length ds.
Proof. apply showTargets_length. Qed.

Lemma shown_again (values : list (option Z)) (ds : list Z) :
  shown values (shown values ds) = shown values ds.
Proof. apply showTargets_again. Qed.

Lemma shown_all (values : list (option Z)) (ds : list Z) :
  allFaces values (List.length ds) = true ->
  shown values ds = targetsOf values (List.length ds).
Proof.
  intros H. apply showTargets_all. rewrite showTargets_returned. exact H.
Qed.

Lemma updateDiceToValues_eq (values : list (option Z)) (s : State) :
  updateDiceToValues values s
  = (if allFaces values (List.length (dice s))
     then set_targetValues values (set_dice (shown values (dice s)) s)
     else set_dice (shown values (dice s)) s,
     allFaces values (List.length (dice s))).
Proof.
  unfold updateDiceToValues, shown, allFaces, targetsOf.
  rewrite <- (showTargets_returned values (dice s) 0).
  destruct (showTargets values 0 (dice s)) as [ds b]. cbn. destruct b; reflexivity.
Qed.

(** [createDice] adds at most six dice and touches nothing else. *)
Lemma createDice_fold (l : list nat) :
  forall (s : State) (b : bool),
    let r := fold_left
               (fun (acc : State * bool) i =>
                  let (s, returned) := acc in
                  if returned then
                    let targetValue := or_one (arr_get (targetValues s) i) in
                    if isFace targetValue then (set_dice (dice s ++ [targetValue]) s, true)
                    else (s, false)
                  else acc) l (s, b) in
    rnd (fst r) = rnd s /\ dom (fst r) = dom s /\ tm (fst r) = tm s /\
    env (fst r) = env s /\
    (List.length (dice (fst r)) <= List.length (dice s) + List.length l)%nat.
Proof.
  induction l as [|i l IH]; intros s b; cbn [fold_left].
  - cbn. repeat split; lia.
  - destruct b.
    + destruct (isFace (or_one (arr_get (targetValues s) i))).
      * destruct (IH (set_dice (dice s ++ [or_one (arr_get (targetValues s) i)]) s) true)
          as (H1 & H2 & H3 & H4 & H5).
        cbn zeta in *. rewrite H1, H2, H3, H4. repeat split.
        cbn in H5. rewrite length_app in H5. cbn in *. lia.
      * destruct (IH s false) as (H1 & H2 & H3 & H4 & H5).
        cbn zeta in *. repeat split; try assumption. cbn. lia.
    + destruct (IH s false) as (H1 & H2 & H3 & H4 & H5).
      cbn zeta in *. repeat split; try assumption. cbn. lia.
Qed.

Lemma createDice_parts (s : State) :
  rnd (fst (createDice s)) = rnd s /\ dom (fst (createDice s)) = dom s /\
  tm (fst (createDice s)) = tm s /\ env (fst (createDice s)) = env s /\
  (List.length (dice (fst (createDice s))) <= List.length (dice s) + 6)%nat.
Proof. exact (createDice_fold (seq 0 6) s true). Qed.

(** ** Tactics *)

#[local] Arguments Z.max : simpl never.
#[local] Arguments Z.min : simpl never.
#[local] Arguments Z.add : simpl never.
#[local] Arguments Z.sub : simpl never.
#[local] Arguments Z.mul : simpl never.
#[local] Arguments Z.div : simpl never.
#[local] Arguments Z.leb : simpl never.
#[local] Arguments Z.ltb : simpl never.
#[local] Arguments Z.eqb : simpl never.
#[local] Arguments Z.of_nat : simpl never.
#[local] Arguments Nat.eqb : simpl never.
#[local] Arguments Nat.ltb : simpl never.
#[local] Arguments String.eqb : simpl never.
#[local] Arguments String.append : simpl never.
#[local] Arguments string_of_Z : simpl never.
#[local] Arguments ceil_div : simpl never.
#[local] Arguments remainingAt : simpl never.
#[local] Arguments durationAt : simpl never.
#[local] Arguments progressAt : simpl never.
#[local] Arguments before : simpl never.
#[local] Arguments truthy : simpl never.
#[local] Arguments or_one : simpl never.
#[local] Arguments arr_get : simpl never.
#[local] Arguments Qle_bool : simpl never.
#[local] Arguments Qmult : simpl never.
#[local] Arguments Qdiv : simpl never.
#[local] Arguments Qminus : simpl never.
#[local] Arguments inject_Z : simpl never.
#[local] Arguments filter : simpl never.
#[local] Arguments seq : simpl never.
#[local] Arguments app : simpl never.
#[local] Arguments map : simpl never.
#[local] Arguments In : simpl never.
#[local] Arguments List.length : simpl never.
#[local] Arguments nth_error : simpl never.
#[local] Arguments set_nth : simpl never.
#[local] Arguments showTargets : simpl never.
#[local] Arguments shown : simpl never.
#[local] Arguments targetsOf : simpl never.
#[local] Arguments allFaces : simpl never.
#[local] Arguments updateDiceToValues : simpl never.
#[local] Arguments createDice : simpl never.

(** Split on a test of the goal that contains no other test. *)
Ltac atomic c :=
  lazymatch c with
  | context [if _ then _ else _] => fail
  | context [match _ with _ => _ end] => fail
  | _ => idtac
  end.

Ltac split_if :=
  match goal with
  | |- context [if ?c then _ else _] => atomic c; destruct c eqn:?
  | |- context [match ?c with _ => _ end] => atomic c; destruct c eqn:?
  end.

Create Rewrite HintDb frame.

(** Reading a part of the state commutes with the tests of a handler. *)
Section Push.
Context {A B : Type} (p : State -> B).

Lemma push_if (c : bool) (a b : State) :
  p (if c then a else b) = if c then p a else p b.
Proof. destruct c; reflexivity. Qed.

Lemma push_option (o : option A) (f : A -> State) (b : State) :
  p (match o with Some x => f x | None => b end)
  = match o with Some x => p (f x) | None => p b end.
Proof. destruct o; reflexivity. Qed.
End Push.

Lemma if_same {B : Type} (c : bool) (x : B) : (if c then x else x) = x.
Proof. destruct c; reflexivity. Qed.

Lemma option_same {A B : Type} (o : option A) (x : B) :
  match o with Some _ => x | None => x end = x.
Proof. destruct o; reflexivity. Qed.

Ltac push :=
  repeat first
    [ rewrite (push_if rnd) | rewrite (push_if out) | rewrite (push_if dom)
    | rewrite (push_if tm) | rewrite (push_if env)
    | rewrite (push_option rnd) | rewrite (push_option out) | rewrite (push_option dom)
    | rewrite (push_option tm) | rewrite (push_option env)
    | rewrite if_same | rewrite option_same | rewrite Bool.if_negb ].

(** Symbolic execution of a handler: rewrite with what is known of the
    handlers it calls, compute the field read, and only then split on the
    tests the result depends on. *)
Ltac simp :=
  repeat first
    [ progress autorewrite with frame
    | progress unfold getServerTime, updateServerTimeOffset, showLastOutcome, showResult,
        retargetDice, rollAllDice
    | progress cbn
    | progress push ].

Ltac frame := intros; simp; repeat (split_if; simp); try reflexivity.

Lemma Z_now (clk n : Z) : clk + (n - clk) = n.
Proof. lia. Qed.
#[local] Hint Rewrite Z_now updateDiceToValues_eq shown_length shown_again : frame.

Ltac unfold_browser :=
  unfold setTimeout, setInterval, requestAnimationFrame, addTimer, clearInterval,
    clearTimeout, cancelAnimationFrame, updateServerTimeOffset, getServerTime in *.

(** ** What each handler does to each part of the state *)

Lemma buildResultSymbols_fold d l s :
  fold_left
    (fun s i =>
       match arr_get d i with
       | Some value =>
           if (1 <=? value) && (value <=? 6)
           then set_resultSymbols (resultSymbols s ++ [value]) s
           else s
       | None => s
       end) l s
  = set_resultSymbols (resultSymbols s ++ symbolsOf d l) s.
Proof.
  revert s; induction l as [|i l IH]; intros s; cbn [fold_left symbolsOf flat_map].
  - rewrite app_nil_r. destruct s as [? ? [] ? ?]; reflexivity.
  - rewrite IH.
    destruct (arr_get d i) as [v|]; [destruct ((1 <=? v) && (v <=? 6))|];
      cbn; rewrite <- ?app_assoc; reflexivity.
Qed.

Lemma buildResultSymbols_eq d s :
  buildResultSymbols d s = set_resultSymbols (symbolsOf d (seq 0 6)) s.
Proof. unfold buildResultSymbols. rewrite buildResultSymbols_fold. reflexivity. Qed.
#[local] Hint Rewrite buildResultSymbols_eq : frame.
#[local] Arguments buildResultSymbols : simpl never.

(** *** [clearCountdownFrame] *)

Lemma clearCountdownFrame_rnd s : rnd (clearCountdownFrame s) = rnd s.
Proof. unfold clearCountdownFrame; unfold_browser; frame. Qed.
Lemma clearCountdownFrame_out s : out (clearCountdownFrame s) = out s.
Proof. unfold clearCountdownFrame; unfold_browser; frame. Qed.
Lemma clearCountdownFrame_dom s : dom (clearCountdownFrame s) = dom s.
Proof. unfold clearCountdownFrame; unfold_browser; frame. Qed.
Lemma clearCountdownFrame_env s : env (clearCountdownFrame s) = env s.
Proof. unfold clearCountdownFrame; unfold_browser; frame. Qed.
Lemma clearCountdownFrame_tm s :
  tm (clearCountdownFrame s) = h_clearCountdownFrame (tm s).
Proof.
  unfold clearCountdownFrame, h_clearCountdownFrame; unfold_browser.
  destruct (countdownHandle s); [destruct (countdownHandleMode s) as [[|]|]|]; reflexivity.
Qed.
#[local] Hint Rewrite clearCountdownFrame_rnd clearCountdownFrame_out clearCountdownFrame_dom
  clearCountdownFrame_env clearCountdownFrame_tm : frame.
#[local] Arguments clearCountdownFrame : simpl never.

(** *** [queueCountdownFrame] *)

Lemma queueCountdownFrame_rnd t l d s : rnd (queueCountdownFrame t l d s) = rnd s.
Proof. unfold queueCountdownFrame; unfold_browser; frame. Qed.
Lemma queueCountdownFrame_out t l d s : out (queueCountdownFrame t l d s) = out s.
Proof. unfold queueCountdownFrame; unfold_browser; frame. Qed.
Lemma queueCountdownFrame_dom t l d s : dom (queueCountdownFrame t l d s) = dom s.
Proof. unfold queueCountdownFrame; unfold_browser; frame. Qed.
Lemma queueCountdownFrame_env t l d s : env (queueCountdownFrame t l d s) = env s.
Proof. unfold queueCountdownFrame; unfold_browser; frame. Qed.
Lemma queueCountdownFrame_tm t l d s :
  tm (queueCountdownFrame t l d s)
  = h_queueCountdownFrame (documentHidden s) (CbCountdown t l d) (tm s).
Proof.
  unfold queueCountdownFrame, h_queueCountdownFrame, h_add; unfold_browser.
  simp. destruct (documentHidden s); simp; reflexivity.
Qed.
#[local] Hint Rewrite queueCountdownFrame_rnd queueCountdownFrame_out queueCountdownFrame_dom
  queueCountdownFrame_env queueCountdownFrame_tm : frame.
#[local] Arguments queueCountdownFrame : simpl never.

(** *** [cancelCountdown] *)

Lemma cancelCountdown_rnd s :
  rnd (cancelCountdown s) = rnd_set_countdownTotalMs None (rnd s).
Proof. unfold cancelCountdown; unfold_browser; frame. Qed.
Lemma cancelCountdown_out s : out (cancelCountdown s) = out s.
Proof. unfold cancelCountdown; unfold_browser; frame. Qed.
Lemma cancelCountdown_dom s : dom (cancelCountdown s) = dom s.
Proof. unfold cancelCountdown; unfold_browser; frame. Qed.
Lemma cancelCountdown_env s : env (cancelCountdown s) = env s.
Proof. unfold cancelCountdown; unfold_browser; frame. Qed.
Lemma cancelCountdown_tm s :
  tm (cancelCountdown s) = h_clearWaiting (h_clearCountdownFrame (tm s)).
Proof.
  unfold cancelCountdown, h_clearWaiting; unfold_browser. simp.
  destruct (tm_waitingStateTimeout (h_clearCountdownFrame (tm s))); reflexivity.
Qed.
#[local] Hint Rewrite cancelCountdown_rnd cancelCountdown_out cancelCountdown_dom
  cancelCountdown_env cancelCountdown_tm : frame.
#[local] Arguments cancelCountdown : simpl never.

(** *** [showWaitingState] *)

Lemma showWaitingState_rnd clk m s :
  rnd (showWaitingState clk m s)
  = rnd_set_countdownTotalMs None (rnd_set_gameState waiting (rnd s)).
Proof. unfold showWaitingState; unfold_browser; frame. Qed.
Lemma showWaitingState_out clk m s : out (showWaitingState clk m s) = out s.
Proof. unfold showWaitingState; unfold_browser; frame. Qed.
Lemma showWaitingState_dom clk m s :
  dom (showWaitingState clk m s) = d_waiting m (dom s).
Proof. unfold showWaitingState; unfold_browser; frame. Qed.
Lemma showWaitingState_env clk m s : env (showWaitingState clk m s) = env s.
Proof. unfold showWaitingState; unfold_browser; frame. Qed.
Lemma showWaitingState_tm clk m s :
  tm (showWaitingState clk m s)
  = h_showWaitingState (before (clk + serverTimeOffset s) (scheduledEndAt s)) (tm s).
Proof.
  unfold showWaitingState, h_showWaitingState, h_setWaiting, h_clearWaiting, h_add;
    unfold_browser.
  destruct (waitingStateTimeout s); simp;
    destruct (before (clk + serverTimeOffset s) (scheduledEndAt s)); reflexivity.
Qed.
#[local] Hint Rewrite showWaitingState_rnd showWaitingState_out showWaitingState_dom
  showWaitingState_env showWaitingState_tm : frame.
#[local] Arguments showWaitingState : simpl never.

(** *** [startRolling] *)

Lemma startRolling_rnd d s :
  rnd (startRolling d s)
  = rnd_set_gameState rolling (rnd_set_countdownTotalMs None (rnd s)).
Proof. unfold startRolling; unfold_browser; frame. Qed.
Lemma startRolling_out d s :
  out (startRolling d s)
  = out_set_rollCount (rollCount s + 1)
      (out_set_dice
         (map (fun index => or_one (arr_get d index)) (seq 0 (List.length (dice s))))
         (out s)).
Proof. unfold startRolling; unfold_browser; frame. Qed.
Lemma startRolling_dom d s :
  dom (startRolling d s)
  = dom_set_resultOverlayVisible false (dom_set_gameOverlayHidden true (dom s)).
Proof. unfold startRolling; unfold_browser; frame. Qed.
Lemma startRolling_env d s : env (startRolling d s) = env s.
Proof. unfold startRolling; unfold_browser; frame. Qed.
Lemma startRolling_tm d s :
  tm (startRolling d s)
  = if forallb isFace
         (map (fun index => or_one (arr_get d index)) (seq 0 (List.length (dice s))))
    then h_add (ByTimeout (rollDuration + Z.of_nat (List.length (dice s)) * 100 + 500))
           (CbShowResult d) (h_clearWaiting (h_clearCountdownFrame (tm s)))
    else h_clearWaiting (h_clearCountdownFrame (tm s)).
Proof.
  unfold startRolling, h_add; unfold_browser. simp.
  assert (E : tm_waitingStateTimeout (h_clearWaiting (h_clearCountdownFrame (tm s))) = None).
  { unfold h_clearWaiting.
    destruct (tm_waitingStateTimeout (h_clearCountdownFrame (tm s))) eqn:E; [reflexivity|exact E]. }
  rewrite E. simp. rewrite length_map, length_seq. reflexivity.
Qed.
#[local] Hint Rewrite startRolling_rnd startRolling_out startRolling_dom
  startRolling_env startRolling_tm : frame.
#[local] Arguments startRolling : simpl never.

(** *** The waiting fallback *)

Lemma waitingStateTimeoutFired_env clk s : env (waitingStateTimeoutFired clk s) = env s.
Proof. unfold waitingStateTimeoutFired; unfold_browser; frame. Qed.
Lemma waitingStateTimeoutFired_tm clk s :
  tm (waitingStateTimeoutFired clk s) = tm_set_waitingStateTimeout None (tm s).
Proof. unfold waitingStateTimeoutFired; unfold_browser; frame. Qed.
Lemma waitingStateTimeoutFired_out clk s : out (waitingStateTimeoutFired clk s) = out s.
Proof. unfold waitingStateTimeoutFired; unfold_browser; frame. Qed.
#[local] Hint Rewrite waitingStateTimeoutFired_env waitingStateTimeoutFired_tm
  waitingStateTimeoutFired_out : frame.

(** *** [animateCountdownToTime] *)

Lemma animateCountdownToTime_rnd clk T l total s :
  rnd (animateCountdownToTime clk T l total s)
  = if 0 <? remainingAt T (clk + serverTimeOffset s) then rnd s
    else if GameStateT_eqb (gameState s) countdown
         then rnd_set_countdownTotalMs None (rnd_set_gameState waiting (rnd s))
         else rnd s.
Proof. unfold animateCountdownToTime; unfold_browser; frame. Qed.
Lemma animateCountdownToTime_out clk T l total s :
  out (animateCountdownToTime clk T l total s) = out s.
Proof. unfold animateCountdownToTime; unfold_browser; frame. Qed.
Lemma animateCountdownToTime_env clk T l total s :
  env (animateCountdownToTime clk T l total s) = env s.
Proof. unfold animateCountdownToTime; unfold_browser; frame. Qed.
Lemma animateCountdownToTime_dom clk T l total s :
  dom (animateCountdownToTime clk T l total s)
  = let d := d_tick total T (clk + serverTimeOffset s) l (dom s) in
    if 0 <? remainingAt T (clk + serverTimeOffset s) then d
    else if GameStateT_eqb (gameState s) countdown
         then d_waiting "Waiting for result..." d
         else d.
Proof. unfold animateCountdownToTime, d_tick; unfold_browser; frame. Qed.
Lemma animateCountdownToTime_tm clk T l total s :
  tm (animateCountdownToTime clk T l total s)
  = let now := clk + serverTimeOffset s in
    if 0 <? remainingAt T now
    then h_queueCountdownFrame (documentHidden s)
           (CbCountdown T l (durationAt total T now)) (tm s)
    else if GameStateT_eqb (gameState s) countdown
         then h_showWaitingState (before now (scheduledEndAt s))
                (h_clearCountdownFrame (tm s))
         else h_clearCountdownFrame (tm s).
Proof. unfold animateCountdownToTime; unfold_browser; frame. Qed.
#[local] Hint Rewrite animateCountdownToTime_rnd animateCountdownToTime_out
  animateCountdownToTime_env animateCountdownToTime_dom animateCountdownToTime_tm : frame.
#[local] Arguments animateCountdownToTime : simpl never.

(** ** The cancellation horizon (C3) *)

(** C3, as stated, fails: with a round window ending at 8000 still stored, a
    [round.cancelled] at server time 10000 sets the horizon to 8000, which is
    neither the maximum of 8000 and 10000 + 30000 nor later than the server
    time plus the fallback. *)
Lemma cancel_horizon_counterexample :
  exists s s',
    run trace_scheduled init_state = Some s /\
    scheduledEndAt s = Some 8000 /\
    s' = onRoundCancelled 10000 {| rce_serverNow := 10000 |} s /\
    getServerTime 10000 s' = 10000 /\
    cancelledUntil s' = Some 8000 /\
    cancelledUntil s' <> Some (Z.max 8000 (10000 + 30000)) /\
    8000 < 10000 + 30000.
Proof.
  eexists; eexists.
  split; [vm_compute; reflexivity|].
  split; [reflexivity|].
  split; [reflexivity|].
  vm_compute; repeat split; congruence.
Qed.

(** C3, amended: on every [round.cancelled] the horizon is the stored end of
    the round window when there is one, else its stored start when there is
    one, else the server time plus 30000 ms; the server time of the handler
    is the event's [serverNow].  The fallback bounds the horizon from below
    only when no window is stored. *)
Theorem cancel_horizon (clk : Z) (data : RoundCancelledEvent) (s : State) :
  let s' := onRoundCancelled clk data s in
  getServerTime clk s' = rce_serverNow data /\
  cancelledUntil s'
  = Some (match scheduledEndAt s with
          | Some endAt => endAt
          | None =>
              match scheduledStartAt s with
              | Some startAt => startAt
              | None => rce_serverNow data + 30000
              end
          end).
Proof.
  unfold onRoundCancelled; unfold_browser; frame.
  all: split; [lia | f_equal; lia].
Qed.

(** ** Outcome precedence (C6) *)

(** C6: [last.outcome] always overwrites the stored outcome; in [countdown]
    and [rolling] it leaves the state field, the page and the timers as they
    were; and when the state field does change, the state was [idle], or
    [waiting] with no round end stored, and it becomes [result]. *)
Theorem last_outcome_precedence (clk : Z) (data : LastOutcomeEvent) (s : State) :
  let s' := onLastOutcome clk data s in
  targetValues s' = loe_diceValues data /\
  currentRoundId s' = loe_roundId data /\
  (gameState s = countdown \/ gameState s = rolling ->
   gameState s' = gameState s /\ dom s' = dom s /\ tm s' = tm s) /\
  (gameState s' <> gameState s ->
   (gameState s = idle \/
    (gameState s = waiting /\ truthy (scheduledEndAt s) = false)) /\
   gameState s' = result /\
   resultLabel s' = "Last Result"%string /\
   resultSymbols s' = symbolsOf (loe_diceValues data) (seq 0 6)).
Proof.
  unfold onLastOutcome, showLastOutcome; unfold_browser.
  frame.
  all: repeat split; try congruence.
  all: try match goal with H : _ \/ _ |- _ => destruct H as [H|H]; rewrite H in *; discriminate end.
  destruct (gameState s); try discriminate; [left; reflexivity|].
  right; split; [reflexivity|].
  cbn in *. destruct (truthy (scheduledEndAt s)); [discriminate|reflexivity].
Qed.

Lemma last_outcome_precedence_witness :
  exists s,
    run trace_scheduled init_state = Some s /\
    gameState s = countdown /\
    gameState
      (onLastOutcome 1000
         {| loe_diceValues := [Some 6; Some 5; Some 4; Some 3; Some 2; Some 1];
            loe_updatedAt := 900; loe_roundId := Some "r0"%string;
            loe_serverNow := 1000 |} s)
    = gameState s.
Proof.
  eexists. split; [vm_compute; reflexivity|].
  split; [reflexivity|].
  refine (proj1 (proj1 (proj2 (proj2 (last_outcome_precedence 1000 _ _))) _)).
  left; reflexivity.
Defined.

(** ** The countdown tick (C7) *)

Lemma remainingAt_nonneg (T now : Z) : 0 <= remainingAt T now.
Proof. unfold remainingAt; lia. Qed.

Lemma remainingAt_antitone (T t1 t2 : Z) :
  t1 <= t2 -> remainingAt T t2 <= remainingAt T t1.
Proof. unfold remainingAt; lia. Qed.

Lemma durationAt_bounds (total : option Z) (T now : Z) :
  1 <= durationAt total T now /\ remainingAt T now <= durationAt total T now.
Proof. unfold durationAt; cbn zeta; lia. Qed.

Lemma progressAt_range (total : option Z) (T now : Z) :
  (0 <= progressAt total T now)%Q /\ (progressAt total T now <= 1)%Q.
Proof.
  unfold progressAt.
  destruct (durationAt_bounds total T now) as [Hd Hr].
  pose proof (remainingAt_nonneg T now) as Hn.
  set (r := remainingAt T now) in *; set (d := durationAt total T now) in *.
  assert (Hd' : (0 < inject_Z d)%Q) by (change (inject_Z 0 < inject_Z d)%Q; rewrite <- Zlt_Qlt; lia).
  assert (H1 : (inject_Z r / inject_Z d <= 1)%Q).
  { apply Qle_shift_div_r; [exact Hd'|]. rewrite Qmult_1_l, <- Zle_Qle; exact Hr. }
  assert (H0 : (0 <= inject_Z r / inject_Z d)%Q).
  { apply Qle_shift_div_l; [exact Hd'|]. rewrite Qmult_0_l. change (inject_Z 0 <= inject_Z r)%Q. rewrite <- Zle_Qle; exact Hn. }
  split; lra.
Qed.

(** C7: for one target the remaining time never grows from one tick to a
    later one; on every tick the denominator of the progress fraction is at
    least 1 and at least the remaining time, the fraction lies between 0 and
    1, and while time remains the tick writes 283 times that fraction to the
    progress ring and hands the same denominator to the next tick. *)
Theorem countdown_tick_monotone_bounded (T t1 t2 : Z) (H : t1 < t2) :
  remainingAt T t2 <= remainingAt T t1 /\
  (forall (total : option Z) (now : Z),
      0 <= remainingAt T now /\
      1 <= durationAt total T now /\
      remainingAt T now <= durationAt total T now /\
      (0 <= progressAt total T now)%Q /\
      (progressAt total T now <= 1)%Q) /\
  (forall (clk : Z) (label : string) (total : option Z) (s : State),
      0 < remainingAt T (getServerTime clk s) ->
      let s' := animateCountdownToTime clk T label total s in
      strokeDashoffset s' = (283 * progressAt total T (getServerTime clk s))%Q /\
      In (CbCountdown T label (durationAt total T (getServerTime clk s)))
         (map t_cb (timers s'))).
Proof.
  split; [apply remainingAt_antitone; lia|].
  split.
  - intros total now.
    pose proof (durationAt_bounds total T now); pose proof (progressAt_range total T now).
    pose proof (remainingAt_nonneg T now). tauto.
  - intros clk label total s Hrem s'; subst s'.
    apply Z.ltb_lt in Hrem. unfold getServerTime in *.
    split.
    + simp. rewrite Hrem. reflexivity.
    + simp. rewrite Hrem. unfold h_queueCountdownFrame, h_add. simp.
      rewrite map_app. apply in_or_app; right; left; reflexivity.
Qed.

Lemma countdown_tick_monotone_bounded_witness :
  1000 < 2000 /\ remainingAt 5000 2000 <= remainingAt 5000 1000.
Proof.
  split; [lia|].
  apply (countdown_tick_monotone_bounded 5000 1000 2000); lia.
Defined.

(** ** Countdown expiry (C2) *)

(** C2, as stated, fails: the countdown installed by [round.scheduled]
    (toward the start, 5000) does cause a transition when it expires: the
    tick at server time 5000 enters the waiting state. *)
Lemma start_countdown_expiry_counterexample :
  exists s s',
    run trace_scheduled init_state = Some s /\
    gameState s = countdown /\
    map t_cb (timers s) = [CbTimeSync; CbCountdown 5000 "Round starting in" 5000] /\
    step 5000 (EvTimer 2) s = Some s' /\
    gameState s' = waiting /\
    statusText s' = "Waiting for result..."%string.
Proof.
  eexists; eexists.
  split; [vm_compute; reflexivity|].
  split; [reflexivity|].
  split; [reflexivity|].
  split; [vm_compute; reflexivity|].
  split; reflexivity.
Qed.

(** C2, amended: the expiry of a countdown does the same whatever its target
    and label (toward the start as toward the end): when a tick finds no time
    remaining and the state is still [countdown], it drops its handle and
    enters the waiting state with "Waiting for result..."; in any other state
    it leaves the state field alone. *)
Theorem countdown_expiry (clk T d : Z) (label : string) (s : State)
    (Hexp : T <= getServerTime clk s) :
  let s' := runCallback clk (CbCountdown T label d) s in
  countdownHandle s' = None /\
  (gameState s = countdown ->
   gameState s' = waiting /\ statusText s' = "Waiting for result..."%string) /\
  (gameState s <> countdown -> gameState s' = gameState s).
Proof.
  unfold getServerTime in Hexp.
  assert (E : (0 <? remainingAt T (clk + serverTimeOffset s)) = false)
    by (apply Z.ltb_ge; unfold remainingAt; lia).
  cbn [runCallback]. simp. rewrite !E.
  split; [|split].
  - destruct (GameStateT_eqb (gameState s) countdown);
      unfold h_showWaitingState, h_setWaiting, h_clearWaiting, h_clearCountdownFrame, h_add;
      frame.
  - intros Hg; rewrite Hg; split; reflexivity.
  - intros Hg. destruct (gameState s) eqn:Hs; cbn; congruence.
Qed.

Lemma countdown_expiry_witness :
  exists s,
    run trace_scheduled init_state = Some s /\
    gameState (runCallback 5000 (CbCountdown 5000 "Round starting in" 5000) s) = waiting.
Proof.
  eexists; split; [vm_compute; reflexivity|].
  refine (proj1 (proj1 (proj2 (countdown_expiry 5000 5000 5000 "Round starting in" _ _)) _)).
  - vm_compute; congruence.
  - reflexivity.
Defined.

(** ** Handle discipline *)

Lemma distinct_NoDup (l : list nat) : distinct l = true -> NoDup l.
Proof.
  induction l as [|x l IH]; cbn [distinct]; intros H; constructor.
  - apply andb_prop in H as [H _]. intros Hin.
    assert (E : existsb (Nat.eqb x) l = true)
      by (apply existsb_exists; exists x; split; [exact Hin | apply Nat.eqb_refl]).
    rewrite E in H; discriminate.
  - apply IH. apply andb_prop in H as [_ H]; exact H.
Qed.

Lemma wfb_wf (h : Handles) : wfb h = true -> wf h.
Proof.
  unfold wfb, wf; intros H; apply andb_prop in H as [H1 H2]; split.
  - apply Forall_forall; intros t Ht. exact (proj1 (forallb_forall _ _) H1 t Ht).
  - apply distinct_NoDup; exact H2.
Qed.

Section HandleLemmas.
Variable h : Handles.
Hypothesis Hwf : wf h.

Let ok_in (t : Timer) (Ht : In t (tm_timers h)) : timer_ok h t = true :=
  proj1 (Forall_forall _ _) (proj1 Hwf) t Ht.

(** Removing timers and keeping the variables keeps the discipline. *)
Lemma wf_filter (p : Timer -> bool) :
  wf (tm_set_timers (filter p (tm_timers h)) h).
Proof.
  split; cbn.
  - apply Forall_forall; intros t Ht. apply filter_In in Ht as [Ht _].
    exact (ok_in t Ht).
  - apply distinct_ids_filter; exact (proj2 Hwf).
Qed.

(** A callback that is neither a countdown tick nor the waiting fallback
    can be added under a fresh handle. *)
Lemma wf_h_add (k : TimerKind) (cb : Callback) :
  isCountdownCb cb = false -> isWaitingCb cb = false -> wf (h_add k cb h).
Proof.
  intros Hc Hw; split; cbn.
  - apply Forall_app; split.
    + apply Forall_forall; intros t Ht. specialize (ok_in t Ht).
      unfold timer_ok in *; cbn.
      apply andb_prop in ok_in as [H12 H3]; apply andb_prop in H12 as [H1 H2].
      rewrite H2, H3, !andb_true_r. apply Nat.ltb_lt in H1. apply Nat.ltb_lt; lia.
    + constructor; [|constructor]. unfold timer_ok; cbn. rewrite Hc, Hw; cbn.
      rewrite !andb_true_r. apply Nat.ltb_lt; lia.
  - rewrite map_app; cbn. apply NoDup_app; [exact (proj2 Hwf) | repeat constructor; intros [] |].
    intros x Hx [E|[]]; subst x.
    apply in_map_iff in Hx as [t [E Ht]]. specialize (ok_in t Ht).
    unfold timer_ok in ok_in.
    apply andb_prop in ok_in as [H12 _]; apply andb_prop in H12 as [H1 _].
    apply Nat.ltb_lt in H1; cbn in E; lia.
Qed.
End HandleLemmas.

Lemma timer_ok_split (h : Handles) (t : Timer) :
  timer_ok h t = true <->
  (t_id t < tm_nextHandle h)%nat /\
  (isCountdownCb (t_cb t) = true ->
   names (tm_countdownHandle h) (t_id t) = true
   /\ kindMatches (tm_countdownHandleMode h) (t_kind t) = true) /\
  (isWaitingCb (t_cb t) = true ->
   names (tm_waitingStateTimeout h) (t_id t) = true /\ isTimeoutKind (t_kind t) = true).
Proof.
  unfold timer_ok. rewrite !andb_true_iff, !orb_true_iff, !andb_true_iff, Nat.ltb_lt,
    !negb_true_iff.
  destruct (isCountdownCb (t_cb t)), (isWaitingCb (t_cb t)); intuition congruence.
Qed.

(** With no countdown callback pending the countdown variables are free, and
    likewise for the waiting fallback. *)
Lemma wf_free_countdown (h : Handles) (c : option nat) (m : option HandleModeT) :
  wf h -> noCountdown h ->
  wf (tm_set_countdownHandleMode m (tm_set_countdownHandle c h)).
Proof.
  intros [Hok Hnd] Hno; split; [|exact Hnd]. cbn.
  apply Forall_forall; intros t Ht.
  pose proof (proj1 (Forall_forall _ _) Hok t Ht) as H1.
  pose proof (proj1 (Forall_forall _ _) Hno t Ht) as H2.
  apply timer_ok_split in H1. apply timer_ok_split; cbn. rewrite H2.
  intuition congruence.
Qed.

Lemma wf_free_waiting (h : Handles) (w : option nat) :
  wf h -> noWaiting h -> wf (tm_set_waitingStateTimeout w h).
Proof.
  intros [Hok Hnd] Hno; split; [|exact Hnd]. cbn.
  apply Forall_forall; intros t Ht.
  pose proof (proj1 (Forall_forall _ _) Hok t Ht) as H1.
  pose proof (proj1 (Forall_forall _ _) Hno t Ht) as H2.
  apply timer_ok_split in H1. apply timer_ok_split; cbn. rewrite H2.
  intuition congruence.
Qed.

Lemma noCountdown_filter (h : Handles) (p : Timer -> bool) :
  noCountdown h -> noCountdown (tm_set_timers (filter p (tm_timers h)) h).
Proof.
  unfold noCountdown; cbn; intros H. apply Forall_forall; intros t Ht.
  apply filter_In in Ht as [Ht _]. exact (proj1 (Forall_forall _ _) H t Ht).
Qed.

Lemma noCountdown_h_add (h : Handles) (k : TimerKind) (cb : Callback) :
  isCountdownCb cb = false -> noCountdown h -> noCountdown (h_add k cb h).
Proof.
  unfold noCountdown; cbn; intros Hc H. apply Forall_app; split; [exact H|].
  constructor; [exact Hc|constructor].
Qed.

Lemma noCountdown_cbs (h : Handles) : noCountdown h -> countdownCbs h = [].
Proof.
  unfold noCountdown, countdownCbs. induction (tm_timers h) as [|t l IH]; intros H.
  - reflexivity.
  - inversion H as [|? ? H1 H2]; subst. rewrite map_cons. unfold filter; fold (filter isCountdownCb).
    rewrite H1. apply IH; exact H2.
Qed.

(** [clearCountdownFrame] cancels every pending countdown callback. *)
Lemma h_clearCountdownFrame_noCountdown (h : Handles) :
  wf h -> noCountdown (h_clearCountdownFrame h).
Proof.
  intros [Hok _]. unfold noCountdown, h_clearCountdownFrame.
  apply Forall_forall; intros t Ht.
  destruct (isCountdownCb (t_cb t)) eqn:Hc; [exfalso|reflexivity].
  destruct (tm_countdownHandle h) as [i|] eqn:Hh; cbn in Ht.
  - apply filter_In in Ht as [Ht Hp].
    pose proof (proj1 (Forall_forall _ _) Hok t Ht) as H1.
    apply timer_ok_split in H1 as (_ & H1 & _). destruct (H1 Hc) as [Hn Hk].
    rewrite Hh in Hn; cbn in Hn. apply Nat.eqb_eq in Hn; subst i.
    rewrite Nat.eqb_refl in Hp. cbn in Hp.
    destruct (tm_countdownHandleMode h) as [[|]|], (t_kind t); cbn in *; congruence.
  - pose proof (proj1 (Forall_forall _ _) Hok t Ht) as H1.
    apply timer_ok_split in H1 as (_ & H1 & _). destruct (H1 Hc) as [Hn _].
    rewrite Hh in Hn; discriminate.
Qed.

Lemma wf_h_clearCountdownFrame (h : Handles) : wf h -> wf (h_clearCountdownFrame h).
Proof.
  intros Hwf. pose proof (h_clearCountdownFrame_noCountdown h Hwf) as Hno.
  unfold h_clearCountdownFrame in *.
  destruct (tm_countdownHandle h) as [i|].
  - apply wf_free_countdown; [apply wf_filter; exact Hwf|].
    unfold noCountdown in *; cbn in *; exact Hno.
  - apply wf_free_countdown; [exact Hwf|]. unfold noCountdown in *; cbn in *; exact Hno.
Qed.

Lemma h_clearCountdownFrame_handle (h : Handles) :
  tm_countdownHandle (h_clearCountdownFrame h) = None.
Proof. reflexivity. Qed.

(** [queueCountdownFrame] leaves exactly the callback it was given. *)
Lemma wf_install_countdown (h : Handles) (hidden : bool) (cb : Callback) :
  wf h -> noCountdown h -> isCountdownCb cb = true ->
  wf (tm_set_countdownHandle (Some (tm_nextHandle h))
        (h_add (if hidden then ByTimeout 100 else ByFrame) cb
           (tm_set_countdownHandleMode (Some (if hidden then timeout else raf)) h))).
Proof.
  intros [Hok Hnd] Hno Hcb. split; cbn.
  - apply Forall_app; split.
    + apply Forall_forall; intros t Ht.
      pose proof (proj1 (Forall_forall _ _) Hok t Ht) as H1.
      pose proof (proj1 (Forall_forall _ _) Hno t Ht) as H2.
      apply timer_ok_split in H1. apply timer_ok_split; cbn. rewrite H2.
      intuition (try congruence; try lia).
    + constructor; [|constructor]. apply timer_ok_split; cbn.
      rewrite Nat.eqb_refl. destruct cb; try discriminate; cbn.
      destruct hidden; cbn; intuition (try congruence; try lia).
  - rewrite map_app. apply NoDup_app; [exact Hnd | repeat constructor; intros [] |].
    intros x Hx [E|[]]; cbn in E; subst x.
    apply in_map_iff in Hx as [t [E Ht]].
    pose proof (proj1 (Forall_forall _ _) Hok t Ht) as H1.
    apply timer_ok_split in H1 as [H1 _]. lia.
Qed.

Lemma wf_h_queueCountdownFrame (h : Handles) (hidden : bool) (cb : Callback) :
  wf h -> isCountdownCb cb = true -> wf (h_queueCountdownFrame hidden cb h).
Proof.
  intros Hwf Hcb. unfold h_queueCountdownFrame. cbn zeta.
  apply wf_install_countdown;
    [apply wf_h_clearCountdownFrame | apply h_clearCountdownFrame_noCountdown | ]; assumption.
Qed.

Lemma h_queueCountdownFrame_cbs (h : Handles) (hidden : bool) (cb : Callback) :
  wf h -> isCountdownCb cb = true ->
  countdownCbs (h_queueCountdownFrame hidden cb h) = [cb].
Proof.
  intros Hwf Hcb. pose proof (h_clearCountdownFrame_noCountdown h Hwf) as Hno.
  apply noCountdown_cbs in Hno.
  unfold h_queueCountdownFrame. cbn zeta.
  revert Hno. generalize (h_clearCountdownFrame h) as h1. intros h1 Hno.
  unfold countdownCbs in *; cbn.
  rewrite map_app, filter_app, Hno. rewrite app_nil_l.
  cbv [map filter t_cb]. rewrite Hcb. reflexivity.
Qed.

(** The waiting fallback. *)
Lemma h_clearWaiting_noWaiting (h : Handles) : wf h -> noWaiting (h_clearWaiting h).
Proof.
  intros [Hok _]. unfold noWaiting, h_clearWaiting.
  apply Forall_forall; intros t Ht.
  destruct (isWaitingCb (t_cb t)) eqn:Hc; [exfalso|reflexivity].
  destruct (tm_waitingStateTimeout h) as [i|] eqn:Hh; cbn in Ht.
  - apply filter_In in Ht as [Ht Hp].
    pose proof (proj1 (Forall_forall _ _) Hok t Ht) as H1.
    apply timer_ok_split in H1 as (_ & _ & H1). destruct (H1 Hc) as [Hn Hk].
    rewrite Hh in Hn; cbn in Hn. apply Nat.eqb_eq in Hn; subst i.
    rewrite Nat.eqb_refl in Hp. destruct (t_kind t); discriminate.
  - pose proof (proj1 (Forall_forall _ _) Hok t Ht) as H1.
    apply timer_ok_split in H1 as (_ & _ & H1). destruct (H1 Hc) as [Hn _].
    rewrite Hh in Hn; discriminate.
Qed.

Lemma wf_h_clearWaiting (h : Handles) : wf h -> wf (h_clearWaiting h).
Proof.
  intros Hwf. pose proof (h_clearWaiting_noWaiting h Hwf) as Hno.
  unfold h_clearWaiting in *.
  destruct (tm_waitingStateTimeout h) as [i|]; [|exact Hwf].
  apply wf_free_waiting; [apply wf_filter; exact Hwf|].
  unfold noWaiting in *; cbn in *; exact Hno.
Qed.

Lemma noCountdown_h_clearWaiting (h : Handles) :
  noCountdown h -> noCountdown (h_clearWaiting h).
Proof.
  intros H. unfold h_clearWaiting. destruct (tm_waitingStateTimeout h); [|exact H].
  apply (noCountdown_filter h) with (p := fun t => negb ((t_id t =? n)%nat && negb (isFrame (t_kind t)))) in H.
  exact H.
Qed.

Lemma wf_h_setWaiting (h : Handles) : wf h -> noWaiting h -> wf (h_setWaiting h).
Proof.
  intros [Hok Hnd] Hno. unfold h_setWaiting. split; cbn.
  - apply Forall_app; split.
    + apply Forall_forall; intros t Ht.
      pose proof (proj1 (Forall_forall _ _) Hok t Ht) as H1.
      pose proof (proj1 (Forall_forall _ _) Hno t Ht) as H2.
      apply timer_ok_split in H1. apply timer_ok_split; cbn. rewrite H2.
      intuition (try congruence; try lia).
    + constructor; [|constructor]. apply timer_ok_split; cbn.
      rewrite Nat.eqb_refl. intuition (try congruence; try lia).
  - rewrite map_app. apply NoDup_app; [exact Hnd | repeat constructor; intros [] |].
    intros x Hx [E|[]]; cbn in E; subst x.
    apply in_map_iff in Hx as [t [E Ht]].
    pose proof (proj1 (Forall_forall _ _) Hok t Ht) as H1.
    apply timer_ok_split in H1 as [H1 _]. lia.
Qed.

Lemma wf_h_showWaitingState (h : Handles) (active : bool) :
  wf h -> wf (h_showWaitingState active h).
Proof.
  intros Hwf. unfold h_showWaitingState. destruct active.
  - apply wf_h_clearWaiting; exact Hwf.
  - apply wf_h_setWaiting; [apply wf_h_clearWaiting | apply h_clearWaiting_noWaiting]; exact Hwf.
Qed.

Lemma noCountdown_h_showWaitingState (h : Handles) (active : bool) :
  noCountdown h -> noCountdown (h_showWaitingState active h).
Proof.
  intros H. unfold h_showWaitingState, h_setWaiting. destruct active.
  - apply noCountdown_h_clearWaiting; exact H.
  - apply noCountdown_h_clearWaiting in H.
    apply (noCountdown_h_add _ (ByTimeout 2000) CbWaiting) in H; [|reflexivity].
    unfold noCountdown in *; cbn in *; exact H.
Qed.

(** At most one countdown callback is ever pending. *)
Lemma wf_countdownCbs_le_1 (h : Handles) : wf h -> (List.length (countdownCbs h) <= 1)%nat.
Proof.
  intros [Hok Hnd]. unfold countdownCbs.
  assert (Hsame : forall t, In t (tm_timers h) -> isCountdownCb (t_cb t) = true ->
                            tm_countdownHandle h = Some (t_id t)).
  { intros t Ht Hc. pose proof (proj1 (Forall_forall _ _) Hok t Ht) as H1.
    apply timer_ok_split in H1 as (_ & H1 & _). destruct (H1 Hc) as [Hn _].
    destruct (tm_countdownHandle h); [|discriminate]. cbn in Hn.
    apply Nat.eqb_eq in Hn; congruence. }
  clear Hok. revert Hnd Hsame. generalize (tm_countdownHandle h) as c.
  induction (tm_timers h) as [|t l IH]; intros c Hnd Hsame.
  - cbv [map filter List.length]. lia.
  - rewrite map_cons in *. inversion Hnd as [|? ? Hn Hd]; subst.
    unfold filter; fold (filter isCountdownCb).
    destruct (isCountdownCb (t_cb t)) eqn:Hc.
    + assert (E : filter isCountdownCb (map t_cb l) = []).
      { destruct (filter isCountdownCb (map t_cb l)) as [|cb r] eqn:Hf; [reflexivity|exfalso].
        assert (Hin : In cb (filter isCountdownCb (map t_cb l))) by (rewrite Hf; left; reflexivity).
        apply filter_In in Hin as [Hin Hcb]. apply in_map_iff in Hin as [t' [E Ht']]. subst cb.
        apply Hn. apply in_map_iff. exists t'; split; [|exact Ht'].
        pose proof (Hsame t (or_introl eq_refl) Hc) as E1.
        pose proof (Hsame t' (or_intror Ht') Hcb) as E2. congruence. }
      rewrite E. cbv [List.length]. lia.
    + apply (IH c Hd). intros t' Ht'. apply Hsame. right; exact Ht'.
Qed.

Create HintDb wf.
#[local] Hint Resolve wf_filter wf_h_add wf_h_clearCountdownFrame wf_h_queueCountdownFrame
  wf_h_clearWaiting wf_h_showWaitingState h_clearCountdownFrame_noCountdown
  noCountdown_h_clearWaiting noCountdown_h_showWaitingState noCountdown_h_add
  noCountdown_filter : wf.

(** The countdown callbacks left pending, read off a handler's result. *)
Ltac cbs :=
  repeat first
    [ rewrite h_queueCountdownFrame_cbs by auto with wf
    | rewrite noCountdown_cbs by auto 8 with wf
    | reflexivity ].

(** A handler's action on one part of the state, obtained by running it:
    the goal [part (handler s) = ?F (x s) ..] is solved by reading [?F] off
    the left-hand side once it mentions [s] through [x s] .. only. *)
Ltac slice1 x :=
  pattern x;
  match goal with
  | |- ?F _ =>
      match F with (fun a => ?lhs = _) => instantiate (1 := fun a => lhs) end
  end;
  reflexivity.

Ltac slice2 x y :=
  pattern x, y;
  match goal with
  | |- ?F _ _ =>
      match F with (fun a b => ?lhs = _) => instantiate (1 := fun a b => lhs) end
  end;
  reflexivity.

Ltac slice3 x y z :=
  pattern x, y, z;
  match goal with
  | |- ?F _ _ _ =>
      match F with (fun a b c => ?lhs = _) => instantiate (1 := fun a b c => lhs) end
  end;
  reflexivity.

(** *** [startScheduledCountdown] and [startRoundCountdown] *)

Section StartCountdown.
Variables (clk : Z) (totalMs remainingMs : option Z).

Definition startScheduledCountdown_rnd :
  { R : RoundVars -> RoundVars |
    forall s, rnd (startScheduledCountdown clk totalMs remainingMs s) = R (rnd s) }.
Proof. eexists; intros s; unfold startScheduledCountdown; simp; slice1 (rnd s). Defined.

Definition startScheduledCountdown_dom :
  { D : RoundVars -> Dom -> Dom |
    forall s, dom (startScheduledCountdown clk totalMs remainingMs s) = D (rnd s) (dom s) }.
Proof. eexists; intros s; unfold startScheduledCountdown; simp; slice2 (rnd s) (dom s). Defined.

Definition startScheduledCountdown_tm :
  { H : RoundVars -> Handles -> Handles |
    forall s, tm (startScheduledCountdown clk totalMs remainingMs s) = H (rnd s) (tm s) }.
Proof. eexists; intros s; unfold startScheduledCountdown; simp; slice2 (rnd s) (tm s). Defined.

Lemma startScheduledCountdown_out s :
  out (startScheduledCountdown clk totalMs remainingMs s) = out s.
Proof. unfold startScheduledCountdown; frame. Qed.

Lemma startScheduledCountdown_env s :
  env (startScheduledCountdown clk totalMs remainingMs s) = env s.
Proof. unfold startScheduledCountdown; frame. Qed.

Definition startRoundCountdown_rnd :
  { R : RoundVars -> RoundVars |
    forall s, rnd (startRoundCountdown clk totalMs remainingMs s) = R (rnd s) }.
Proof. eexists; intros s; unfold startRoundCountdown; simp; slice1 (rnd s). Defined.

Definition startRoundCountdown_dom :
  { D : RoundVars -> Dom -> Dom |
    forall s, dom (startRoundCountdown clk totalMs remainingMs s) = D (rnd s) (dom s) }.
Proof. eexists; intros s; unfold startRoundCountdown; simp; slice2 (rnd s) (dom s). Defined.

Definition startRoundCountdown_tm :
  { H : RoundVars -> Handles -> Handles |
    forall s, tm (startRoundCountdown clk totalMs remainingMs s) = H (rnd s) (tm s) }.
Proof. eexists; intros s; unfold startRoundCountdown; simp; slice2 (rnd s) (tm s). Defined.

Lemma startRoundCountdown_out s :
  out (startRoundCountdown clk totalMs remainingMs s) = out s.
Proof. unfold startRoundCountdown; frame. Qed.

Lemma startRoundCountdown_env s :
  env (startRoundCountdown clk totalMs remainingMs s) = env s.
Proof. unfold startRoundCountdown; frame. Qed.
End StartCountdown.

Lemma startScheduledCountdown_rnd_eq clk a b s :
  rnd (startScheduledCountdown clk a b s) = proj1_sig (startScheduledCountdown_rnd clk a b) (rnd s).
Proof. apply (proj2_sig (startScheduledCountdown_rnd clk a b)). Qed.
Lemma startScheduledCountdown_dom_eq clk a b s :
  dom (startScheduledCountdown clk a b s)
  = proj1_sig (startScheduledCountdown_dom clk a b) (rnd s) (dom s).
Proof. apply (proj2_sig (startScheduledCountdown_dom clk a b)). Qed.
Lemma startScheduledCountdown_tm_eq clk a b s :
  tm (startScheduledCountdown clk a b s)
  = proj1_sig (startScheduledCountdown_tm clk a b) (rnd s) (tm s).
Proof. apply (proj2_sig (startScheduledCountdown_tm clk a b)). Qed.
Lemma startRoundCountdown_rnd_eq clk a b s :
  rnd (startRoundCountdown clk a b s) = proj1_sig (startRoundCountdown_rnd clk a b) (rnd s).
Proof. apply (proj2_sig (startRoundCountdown_rnd clk a b)). Qed.
Lemma startRoundCountdown_dom_eq clk a b s :
  dom (startRoundCountdown clk a b s)
  = proj1_sig (startRoundCountdown_dom clk a b) (rnd s) (dom s).
Proof. apply (proj2_sig (startRoundCountdown_dom clk a b)). Qed.
Lemma startRoundCountdown_tm_eq clk a b s :
  tm (startRoundCountdown clk a b s)
  = proj1_sig (startRoundCountdown_tm clk a b) (rnd s) (tm s).
Proof. apply (proj2_sig (startRoundCountdown_tm clk a b)). Qed.

#[local] Hint Rewrite startScheduledCountdown_rnd_eq startScheduledCountdown_dom_eq
  startScheduledCountdown_tm_eq startScheduledCountdown_out startScheduledCountdown_env
  startRoundCountdown_rnd_eq startRoundCountdown_dom_eq startRoundCountdown_tm_eq
  startRoundCountdown_out startRoundCountdown_env : frame.
#[local] Arguments startScheduledCountdown : simpl never.
#[local] Arguments startRoundCountdown : simpl never.

Ltac open_slices :=
  cbv [proj1_sig startScheduledCountdown_rnd startScheduledCountdown_dom
       startScheduledCountdown_tm startRoundCountdown_rnd startRoundCountdown_dom
       startRoundCountdown_tm].

Ltac simp2 := repeat first [ progress simp | progress open_slices ].

(** ** Idempotence of the SCHEDULED snapshot (C4) *)

Section ScheduledSnapshot.
Variables (clk startAt endAt serverNow : Z) (lo : LastOutcome).
Variables (totalMs remainingMs : option Z).

Let data := SCHEDULED startAt endAt lo serverNow totalMs remainingMs.

(** Whether [updateDiceToValues] returns on the snapshot's last outcome. *)
Let faces (o : Outcome) := allFaces (lo_diceValues lo) (List.length (out_dice o)).

Ltac run_scheduled :=
  unfold data, syncSnapshot; simp2.

Definition scheduled_rnd :
  { R : bool -> RoundVars -> RoundVars |
    forall s, rnd (syncSnapshot clk data s) = R (faces (out s)) (rnd s) }.
Proof.
  eexists; intros s; unfold faces; run_scheduled;
    slice2 (allFaces (lo_diceValues lo) (List.length (dice s))) (rnd s).
Defined.

Definition scheduled_out :
  { O : Outcome -> Outcome | forall s, out (syncSnapshot clk data s) = O (out s) }.
Proof. eexists; intros s; run_scheduled; slice1 (out s). Defined.

Definition scheduled_dom :
  { D : bool -> RoundVars -> Dom -> Dom |
    forall s, dom (syncSnapshot clk data s) = D (faces (out s)) (rnd s) (dom s) }.
Proof.
  eexists; intros s; unfold faces; run_scheduled;
    slice3 (allFaces (lo_diceValues lo) (List.length (dice s))) (rnd s) (dom s).
Defined.

Definition scheduled_tm :
  { H : bool -> RoundVars -> Handles -> Handles |
    forall s, tm (syncSnapshot clk data s) = H (faces (out s)) (rnd s) (tm s) }.
Proof.
  eexists; intros s; unfold faces; run_scheduled;
    slice3 (allFaces (lo_diceValues lo) (List.length (dice s))) (rnd s) (tm s).
Defined.

Lemma scheduled_env (s : State) : env (syncSnapshot clk data s) = env s.
Proof. run_scheduled; reflexivity. Qed.

Ltac by_slices :=
  cbv [proj1_sig scheduled_rnd scheduled_out scheduled_dom scheduled_tm];
  simp2; repeat (split_if; simp2); try reflexivity; try congruence.

Lemma scheduled_rnd_idem (b : bool) (r : RoundVars) :
  let R := proj1_sig scheduled_rnd b in R (R r) = R r.
Proof. by_slices. Qed.

Lemma scheduled_out_idem (o : Outcome) :
  let O := proj1_sig scheduled_out in O (O o) = O o.
Proof. by_slices. Qed.

(** The dice are as many after the snapshot, so a second application
    returns from [updateDiceToValues] when the first did. *)
Lemma scheduled_out_faces (o : Outcome) :
  faces (proj1_sig scheduled_out o) = faces o.
Proof. unfold faces. by_slices. Qed.

Lemma scheduled_dom_idem (b : bool) (r : RoundVars) (d : Dom) :
  let R := proj1_sig scheduled_rnd b in
  let D := proj1_sig scheduled_dom b in
  D (R r) (D r d) = D r d.
Proof. by_slices. Qed.

Lemma scheduled_tm_wf (b : bool) (r : RoundVars) (h : Handles) :
  wf h -> wf (proj1_sig scheduled_tm b r h).
Proof. intros Hwf. by_slices. all: auto 8 with wf. Qed.

Lemma scheduled_tm_idem (b : bool) (r : RoundVars) (h : Handles) :
  wf h ->
  let R := proj1_sig scheduled_rnd b in
  let H := proj1_sig scheduled_tm b in
  countdownCbs (H (R r) (H r h)) = countdownCbs (H r h).
Proof. intros Hwf. by_slices. all: cbs. Qed.
End ScheduledSnapshot.

(** C4: applying the same SCHEDULED snapshot a second time, at the same
    instant, changes nothing that is shown or stored: the round variables
    (state field, window, horizon, offset, denominator), the outcome and the
    dice, the page and the transport are those the first application left;
    the pending countdown callback (its target, label and denominator) is the
    same; and at most one countdown callback is pending. *)
Theorem scheduled_snapshot_idempotent (clk startAt endAt serverNow : Z)
    (lo : LastOutcome) (totalMs remainingMs : option Z) (s : State)
    (Hwf : wf (tm s)) :
  let data := SCHEDULED startAt endAt lo serverNow totalMs remainingMs in
  let s1 := syncSnapshot clk data s in
  let s2 := syncSnapshot clk data s1 in
  rnd s2 = rnd s1 /\
  out s2 = out s1 /\
  dom s2 = dom s1 /\
  env s2 = env s1 /\
  countdownCbs (tm s2) = countdownCbs (tm s1) /\
  (List.length (countdownCbs (tm s2)) <= 1)%nat.
Proof.
  intros data s1 s2; subst s1 s2 data.
  rewrite !scheduled_env.
  rewrite !(proj2_sig (scheduled_rnd _ _ _ _ _ _ _)).
  rewrite !(proj2_sig (scheduled_out _ _ _ _ _ _ _)).
  rewrite !(proj2_sig (scheduled_dom _ _ _ _ _ _ _)).
  rewrite !(proj2_sig (scheduled_tm _ _ _ _ _ _ _)).
  rewrite !(proj2_sig (scheduled_rnd _ _ _ _ _ _ _)).
  rewrite !(proj2_sig (scheduled_out _ _ _ _ _ _ _)).
  rewrite !scheduled_out_faces.
  split; [apply scheduled_rnd_idem|].
  split; [apply scheduled_out_idem|].
  split; [apply scheduled_dom_idem|].
  split; [reflexivity|].
  split; [apply scheduled_tm_idem; exact Hwf|].
  apply wf_countdownCbs_le_1. do 2 apply scheduled_tm_wf. exact Hwf.
Qed.

Lemma scheduled_snapshot_idempotent_witness :
  wf (tm loaded_state) /\
  rnd (syncSnapshot 1000 scheduledSnapshot (syncSnapshot 1000 scheduledSnapshot loaded_state))
  = rnd (syncSnapshot 1000 scheduledSnapshot loaded_state).
Proof.
  assert (H : wf (tm loaded_state)) by (apply wfb_wf; reflexivity).
  split; [exact H|].
  exact (proj1 (scheduled_snapshot_idempotent 1000 5000 8000 1000 noOutcome None None
                  loaded_state H)).
Defined.

(** ** A cancelled round seen through a snapshot (C5) *)

(** C5, as stated, fails on the message: once a [round.cancelled] has set a
    horizon that is still ahead, the snapshot of the cancelled round shows
    "Round cancelled" where a live [round.cancelled] shows "Waiting for next
    round...". *)
Lemma cancelled_snapshot_counterexample :
  exists s,
    run (trace_scheduled ++ [(1000, EvMessage 0 (cancelledMsg 1000))]) init_state = Some s /\
    cancelledUntil s = Some 8000 /\
    statusText (syncSnapshot 1000 (STARTED_OR_REVEALED cancelledRound noOutcome 1000) s)
    = "Round cancelled"%string /\
    statusText (onRoundCancelled 1000 {| rce_serverNow := 1000 |} s)
    = "Waiting for next round..."%string.
Proof.
  eexists.
  split; [vm_compute; reflexivity|].
  split; [reflexivity|].
  split; reflexivity.
Qed.

(** C5, amended: when [updateDiceToValues] returns on the snapshot's last
    outcome (its entries for the dice are faces or missing), a
    STARTED_OR_REVEALED snapshot whose [diceValues] is the empty array enters
    [waiting] (never [rolling] or [result]), cancels the countdown (no handle,
    no callback pending) and paints the waiting page exactly as a live
    [round.cancelled] does, except for the message while a cancellation
    horizon is still ahead of the snapshot's [serverNow]: then it reads
    "Round cancelled" instead of "Waiting for next round...". *)
Theorem cancelled_snapshot_equivalence (clk serverNow : Z) (round : Round)
    (lo : LastOutcome) (data : RoundCancelledEvent) (s : State)
    (Hwf : wf (tm s))
    (Hfaces : allFaces (lo_diceValues lo) (List.length (dice s)) = true)
    (Hempty : r_diceValues round = Some []) :
  let s1 := syncSnapshot clk (STARTED_OR_REVEALED round lo serverNow) s in
  let s2 := onRoundCancelled clk data s in
  gameState s1 = waiting /\
  gameState s2 = waiting /\
  countdownHandle s1 = None /\
  countdownHandle s2 = None /\
  countdownCbs (tm s1) = [] /\
  countdownCbs (tm s2) = [] /\
  dom s2 = d_waiting "Waiting for next round..." (dom s) /\
  dom s1 = d_waiting (if before serverNow (cancelledUntil s)
                      then "Round cancelled" else "Waiting for next round...") (dom s).
Proof.
  unfold syncSnapshot, onRoundCancelled. rewrite Hempty.
  change (@List.length (option Z) [] =? 0)%nat with true. cbv iota.
  repeat split.
  all: simp; rewrite ?Hfaces; simp; try reflexivity.
  all: repeat (split_if; simp); try reflexivity.
  all: try (cbs; fail).
  all: unfold h_showWaitingState, h_setWaiting, h_clearWaiting, h_clearCountdownFrame, h_add.
  all: frame.
Qed.

Lemma cancelled_snapshot_equivalence_witness :
  gameState (syncSnapshot 1000 (STARTED_OR_REVEALED cancelledRound noOutcome 1000) loaded_state)
  = waiting.
Proof.
  refine (proj1 (cancelled_snapshot_equivalence 1000 1000 cancelledRound noOutcome
                   {| rce_serverNow := 1000 |} loaded_state _ _ _)).
  - apply wfb_wf; reflexivity.
  - reflexivity.
  - reflexivity.
Defined.

(** ** Cancellation suppression (C1) *)

(** C1, as stated, fails: a [round.cancelled] at server time 1000 sets the
    horizon to 8000; the [round.scheduled] delivered at server time 2000,
    before the horizon, clears the horizon, enters [countdown] and installs a
    countdown toward 6000. *)
Lemma cancellation_suppression_counterexample :
  exists s1 s2,
    run (trace_scheduled ++ [(1000, EvMessage 0 (cancelledMsg 1000))]) init_state = Some s1 /\
    cancelledUntil s1 = Some 8000 /\
    gameState s1 = waiting /\
    step 2000 (EvMessage 0 (scheduledMsg 6000 9000 2000)) s1 = Some s2 /\
    getServerTime 2000 s2 = 2000 /\
    gameState s2 = countdown /\
    cancelledUntil s2 = None /\
    countdownCbs (tm s2) = [CbCountdown 6000 "Round starting in" 4000].
Proof.
  eexists; eexists.
  split; [vm_compute; reflexivity|].
  split; [reflexivity|].
  split; [reflexivity|].
  split; [vm_compute; reflexivity|].
  repeat split.
Qed.

Lemma before_horizon (now h : Z) : h <> 0 -> now < h -> before now (Some h) = true.
Proof.
  intros Hh Hlt. unfold before.
  apply Z.eqb_neq in Hh. apply Z.ltb_lt in Hlt. rewrite Hh, Hlt. reflexivity.
Qed.

Lemma truthy_nonzero (v : Z) : v <> 0 -> truthy (Some v) = true.
Proof. intros H. unfold truthy. apply Z.eqb_neq in H. rewrite H. reflexivity. Qed.

Lemma before_None (now : Z) : before now None = false.
Proof. reflexivity. Qed.
#[local] Hint Rewrite before_None : frame.

(** C1, amended: the suppression is that of the snapshot path.  After a
    [round.cancelled] has set a (non-zero) horizon [h], every SCHEDULED
    snapshot whose [serverNow] is before [h] (and on whose last outcome
    [updateDiceToValues] returns) leaves the state at [waiting] with "Waiting
    for next round...", keeps the horizon and leaves no countdown pending.  A
    live [round.scheduled] event is not suppressed: it clears the horizon
    first, and when its [startAt] is not zero it never shows "Waiting for
    next round...": it enters [countdown] with one countdown toward the
    start, or, when no time remains, [waiting] with "Waiting for
    result...". *)
Theorem cancellation_suppression (clk h startAt endAt serverNow : Z)
    (lo : LastOutcome) (totalMs remainingMs : option Z) (s : State)
    (Hwf : wf (tm s)) (Hc : cancelledUntil s = Some h) (Hh : h <> 0)
    (Hlt : serverNow < h)
    (Hfaces : allFaces (lo_diceValues lo) (List.length (dice s)) = true) :
  let s' := syncSnapshot clk (SCHEDULED startAt endAt lo serverNow totalMs remainingMs) s in
  gameState s' = waiting /\
  statusText s' = "Waiting for next round..."%string /\
  countdownHandle s' = None /\
  countdownCbs (tm s') = [] /\
  cancelledUntil s' = Some h /\
  forall data : RoundScheduledEvent,
    let now := rse_serverNow data in
    let remaining := rse_remainingMs data ?? Z.max 0 (rse_startAt data - now) in
    let total := Z.max 1 (rse_totalMs data ?? countdownTotalMs s ?? remaining) in
    let s'' := onRoundScheduled clk data s in
    cancelledUntil s'' = None /\
    (rse_startAt data <> 0 ->
     statusText s'' <> "Waiting for next round..."%string /\
     (0 < remaining ->
      gameState s'' = countdown /\
      countdownCbs (tm s'')
      = [CbCountdown (now + remaining) "Round starting in"
           (durationAt (Some total) (now + remaining) now)]) /\
     (remaining <= 0 ->
      gameState s'' = waiting /\
      statusText s'' = "Waiting for result..."%string /\
      countdownCbs (tm s'') = [])).
Proof.
  pose proof (before_horizon serverNow h Hh Hlt) as Hb.
  cbn zeta. unfold syncSnapshot. simp2. rewrite Hc, Hb, Hfaces. simp2.
  split; [reflexivity|]. split; [reflexivity|].
  split.
  { generalize (h_clearCountdownFrame_handle (tm s)).
    generalize (h_clearCountdownFrame (tm s)) as h1. intros h1 H1.
    unfold h_showWaitingState, h_setWaiting, h_clearWaiting, h_add.
    simp; repeat (split_if; simp); exact H1. }
  split; [cbs|]. split; [exact Hc|].
  intros data.
  split; [unfold onRoundScheduled; simp2; repeat (split_if; simp2); reflexivity|].
  intros Hs. pose proof (truthy_nonzero _ Hs) as Ht.
  unfold onRoundScheduled.
  set (remaining := rse_remainingMs data ?? Z.max 0 (rse_startAt data - rse_serverNow data)).
  destruct (0 <? remainingAt (rse_serverNow data + remaining) (rse_serverNow data)) eqn:E.
  - assert (Hpos : 0 < remaining) by (apply Z.ltb_lt in E; unfold remainingAt in E; lia).
    repeat split; try (intros; exfalso; lia); simp2; rewrite ?Ht; simp2; fold remaining;
      rewrite ?E; simp2; try reflexivity; try lia.
    + repeat (split_if; simp2); discriminate.
    + cbs.
  - assert (Hneg : remaining <= 0) by (apply Z.ltb_ge in E; unfold remainingAt in E; lia).
    repeat split; try (intros; exfalso; lia); simp2; rewrite ?Ht; simp2; fold remaining;
      rewrite ?E; simp2; try reflexivity; try lia.
    + discriminate.
    + cbs.
Qed.

Lemma cancellation_suppression_witness :
  exists s,
    run (trace_scheduled ++ [(1000, EvMessage 0 (cancelledMsg 1000))]) init_state = Some s /\
    gameState (syncSnapshot 2000 (SCHEDULED 6000 9000 noOutcome 2000 None None) s) = waiting.
Proof.
  eexists; split; [vm_compute; reflexivity|].
  refine (proj1 (cancellation_suppression 2000 8000 6000 9000 2000 noOutcome None None
                   _ _ _ _ _ _)).
  - apply wfb_wf; reflexivity.
  - reflexivity.
  - lia.
  - lia.
  - reflexivity.
Defined.

(** ** Invariants of the reachable states *)

Lemma startScheduledCountdown_tm_wf clk a b r h :
  wf h -> wf (proj1_sig (startScheduledCountdown_tm clk a b) r h).
Proof. intros Hwf. open_slices. simp; repeat (split_if; simp); auto 8 with wf. Qed.

Lemma startRoundCountdown_tm_wf clk a b r h :
  wf h -> wf (proj1_sig (startRoundCountdown_tm clk a b) r h).
Proof. intros Hwf. open_slices. simp; repeat (split_if; simp); auto 8 with wf. Qed.

#[local] Hint Resolve startScheduledCountdown_tm_wf startRoundCountdown_tm_wf : wf.

Ltac run_game := simp2; repeat (split_if; simp2).

Lemma syncSnapshot_env clk data s : env (syncSnapshot clk data s) = env s.
Proof. unfold syncSnapshot; destruct data; run_game; reflexivity. Qed.

Lemma syncSnapshot_dice clk data s :
  List.length (dice (syncSnapshot clk data s)) = List.length (dice s).
Proof.
  unfold syncSnapshot; destruct data; run_game;
    rewrite ?length_map, ?length_seq; reflexivity.
Qed.

Lemma syncSnapshot_wf clk data s : wf (tm s) -> wf (tm (syncSnapshot clk data s)).
Proof. intros Hwf. unfold syncSnapshot; destruct data; run_game; auto 8 with wf. Qed.

Lemma onMessage_env clk m s : env (onMessage clk m s) = env s.
Proof.
  destruct m as [[d|]|[d|]|[d|]|[d|]|[d|]]; try reflexivity;
    unfold onMessage, onLastOutcome, onRoundScheduled, onRoundStarted, onRoundResult,
      onRoundCancelled; run_game; reflexivity.
Qed.

Lemma onMessage_dice clk m s :
  List.length (dice (onMessage clk m s)) = List.length (dice s).
Proof.
  destruct m as [[d|]|[d|]|[d|]|[d|]|[d|]]; try reflexivity;
    unfold onMessage, onLastOutcome, onRoundScheduled, onRoundStarted, onRoundResult,
      onRoundCancelled; run_game; rewrite ?length_map, ?length_seq; reflexivity.
Qed.

Lemma onMessage_wf clk m s : wf (tm s) -> wf (tm (onMessage clk m s)).
Proof.
  intros Hwf.
  destruct m as [[d|]|[d|]|[d|]|[d|]|[d|]]; try exact Hwf;
    unfold onMessage, onLastOutcome, onRoundScheduled, onRoundStarted, onRoundResult,
      onRoundCancelled; run_game; auto 8 with wf.
Qed.

(** The timer that fires. *)
Lemma find_id_In (h : nat) (l : list Timer) (t : Timer) :
  find (fun t => (t_id t =? h)%nat) l = Some t -> In t l /\ t_id t = h.
Proof.
  intros H. apply find_some in H as [Hin Hid]. split; [exact Hin|].
  apply Nat.eqb_eq; exact Hid.
Qed.

Lemma fired_noWaiting (hs : Handles) (t : Timer) :
  wf hs -> In t (tm_timers hs) -> isWaitingCb (t_cb t) = true ->
  isInterval (t_kind t) = false /\
  noWaiting (tm_set_timers (filter (fun t' => negb (t_id t' =? t_id t)%nat) (tm_timers hs)) hs).
Proof.
  intros [Hok _] Ht Hw.
  pose proof (proj1 (Forall_forall _ _) Hok t Ht) as H1.
  apply timer_ok_split in H1 as (_ & _ & H1). destruct (H1 Hw) as [Hn Hk].
  split; [destruct (t_kind t); try discriminate; reflexivity|].
  unfold noWaiting; cbn. apply Forall_forall; intros t' Ht'.
  apply filter_In in Ht' as [Ht' Hp].
  destruct (isWaitingCb (t_cb t')) eqn:Hw'; [exfalso|reflexivity].
  pose proof (proj1 (Forall_forall _ _) Hok t' Ht') as H2.
  apply timer_ok_split in H2 as (_ & _ & H2). destruct (H2 Hw') as [Hn' _].
  destruct (tm_waitingStateTimeout hs) as [i|]; [|discriminate]. cbn in Hn, Hn'.
  apply Nat.eqb_eq in Hn, Hn'. subst. rewrite Hn', Nat.eqb_refl in Hp. discriminate.
Qed.

Lemma fireTimer_wf clk h s s' :
  wf (tm s) -> fireTimer clk h s = Some s' -> wf (tm s').
Proof.
  intros Hwf. unfold fireTimer.
  destruct (find (fun t => (t_id t =? h)%nat) (timers s)) as [t|] eqn:Hfind; [|discriminate].
  intros E; injection E as <-.
  apply find_id_In in Hfind as [Hin Hid]. subst h.
  destruct (t_cb t) eqn:Hcb; cbn [runCallback].
  - unfold connectSSE, updateConnectionStatus. run_game; auto 8 with wf.
  - run_game; auto 8 with wf.
  - assert (Hw : isWaitingCb (t_cb t) = true) by (rewrite Hcb; reflexivity).
    destruct (fired_noWaiting (tm s) t Hwf Hin Hw) as [Hk Hno].
    rewrite Hk. simp. apply wf_free_waiting; [apply wf_filter; exact Hwf | exact Hno].
  - run_game; auto 8 with wf.
  - run_game; auto 8 with wf.
Qed.

Lemma fireTimer_fetch clk h s s' :
  fireTimer clk h s = Some s' -> env_fetch (env s') = env_fetch (env s).
Proof.
  unfold fireTimer.
  destruct (find (fun t => (t_id t =? h)%nat) (timers s)) as [t|]; [|discriminate].
  intros E; injection E as <-.
  destruct (t_cb t); cbn [runCallback]; unfold connectSSE, updateConnectionStatus;
    run_game; reflexivity.
Qed.

Lemma fireTimer_dice clk h s s' :
  fireTimer clk h s = Some s' -> List.length (dice s') = List.length (dice s).
Proof.
  unfold fireTimer.
  destruct (find (fun t => (t_id t =? h)%nat) (timers s)) as [t|]; [|discriminate].
  intros E; injection E as <-.
  destruct (t_cb t); cbn [runCallback]; unfold connectSSE, updateConnectionStatus;
    run_game; reflexivity.
Qed.

(** The channel's handlers. *)
Lemma startPeriodicTimeSync_tm s :
  tm (startPeriodicTimeSync s)
  = h_add (ByInterval 30000) CbTimeSync
      (match timeSyncInterval s with
       | Some i =>
           tm_set_timers
             (filter (fun t => negb ((t_id t =? i)%nat && negb (isFrame (t_kind t))))
                (timers s)) (tm s)
       | None => tm s
       end).
Proof.
  unfold startPeriodicTimeSync, h_add; unfold_browser.
  destruct (timeSyncInterval s); reflexivity.
Qed.

Lemma startPeriodicTimeSync_wf s : wf (tm s) -> wf (tm (startPeriodicTimeSync s)).
Proof.
  intros Hwf. rewrite startPeriodicTimeSync_tm.
  destruct (timeSyncInterval s); auto with wf.
Qed.

Lemma scheduleReconnect_tm s :
  tm (scheduleReconnect s)
  = if maxReconnectAttempts <=? reconnectAttempts s then tm s
    else h_add (ByTimeout (reconnectDelay * Z.min (reconnectAttempts s + 1) 5)) CbConnect (tm s).
Proof.
  unfold scheduleReconnect, updateConnectionStatus, h_add; unfold_browser.
  destruct (maxReconnectAttempts <=? reconnectAttempts s); reflexivity.
Qed.

Lemma scheduleReconnect_wf s : wf (tm s) -> wf (tm (scheduleReconnect s)).
Proof.
  intros Hwf. rewrite scheduleReconnect_tm.
  destruct (maxReconnectAttempts <=? reconnectAttempts s); auto with wf.
Qed.

Lemma scheduleReconnect_fetch s : fetch (scheduleReconnect s) = fetch s.
Proof.
  unfold scheduleReconnect, updateConnectionStatus; unfold_browser.
  destruct (maxReconnectAttempts <=? reconnectAttempts s); reflexivity.
Qed.

Lemma scheduleReconnect_out s : out (scheduleReconnect s) = out s.
Proof.
  unfold scheduleReconnect, updateConnectionStatus; unfold_browser.
  destruct (maxReconnectAttempts <=? reconnectAttempts s); reflexivity.
Qed.

Lemma onerror_wf s : wf (tm s) -> wf (tm (onerror s)).
Proof.
  intros Hwf. unfold onerror.
  destruct (eventSource _) as [src|]; [|exact Hwf].
  destruct (readyState src _) as [[| |]|]; try exact Hwf.
  apply scheduleReconnect_wf; exact Hwf.
Qed.

Lemma onerror_fetch s : fetch (onerror s) = fetch s.
Proof.
  unfold onerror.
  destruct (eventSource _) as [src|]; [|reflexivity].
  destruct (readyState src _) as [[| |]|]; try reflexivity.
  rewrite scheduleReconnect_fetch; reflexivity.
Qed.

Lemma onerror_out s : out (onerror s) = out s.
Proof.
  unfold onerror.
  destruct (eventSource _) as [src|]; [|reflexivity].
  destruct (readyState src _) as [[| |]|]; try reflexivity.
  rewrite scheduleReconnect_out; reflexivity.
Qed.

Lemma fetchSnapshotAndSync_tm s : tm (fetchSnapshotAndSync s) = tm s.
Proof. unfold fetchSnapshotAndSync. destruct (isFetchingSnapshot s); reflexivity. Qed.

Lemma fetchSnapshotAndSync_out s : out (fetchSnapshotAndSync s) = out s.
Proof. unfold fetchSnapshotAndSync. destruct (isFetchingSnapshot s); reflexivity. Qed.

Lemma startPeriodicTimeSync_out s : out (startPeriodicTimeSync s) = out s.
Proof.
  unfold startPeriodicTimeSync; unfold_browser. destruct (timeSyncInterval s); reflexivity.
Qed.

Lemma startPeriodicTimeSync_fetch s : fetch (startPeriodicTimeSync s) = fetch s.
Proof.
  unfold startPeriodicTimeSync; unfold_browser. destruct (timeSyncInterval s); reflexivity.
Qed.

Lemma fetchSnapshotAndSync_ok s : fetch_ok s -> fetch_ok (fetchSnapshotAndSync s).
Proof.
  unfold fetch_ok, fetchSnapshotAndSync.
  destruct (isFetchingSnapshot s) eqn:E; [rewrite E; trivial|].
  intros H; cbn. rewrite H; reflexivity.
Qed.

(** The end of [init]. *)
Lemma init_resume_parts (s : State) :
  exists b : bool,
    tm (init_resume s) = (if b then h_add (ByTimeout 500) CbConnect (tm s) else tm s) /\
    env (init_resume s) = env (set_assetsPending false s) /\
    (List.length (dice (init_resume s)) <= List.length (dice s) + 6)%nat.
Proof.
  unfold init_resume. cbn zeta.
  pose proof (createDice_parts (set_assetsPending false s)) as (_ & _ & H3 & H4 & H5).
  destruct (createDice (set_assetsPending false s)) as [s1 b]. cbn [fst] in *.
  exists b. destruct b; cbn [negb]; unfold setTimeout, addTimer, h_add; cbn;
    rewrite ?H3, ?H4; repeat split; exact H5.
Qed.

Lemma fireTimer_pending clk h s s' :
  fireTimer clk h s = Some s' -> assetsPending s' = assetsPending s.
Proof.
  unfold fireTimer.
  destruct (find (fun t => (t_id t =? h)%nat) (timers s)) as [t|]; [|discriminate].
  intros E; injection E as <-.
  destruct (t_cb t); cbn [runCallback]; unfold connectSSE, updateConnectionStatus;
    run_game; reflexivity.
Qed.

Lemma scheduleReconnect_pending s : assetsPending (scheduleReconnect s) = assetsPending s.
Proof.
  unfold scheduleReconnect, updateConnectionStatus; unfold_browser.
  destruct (maxReconnectAttempts <=? reconnectAttempts s); reflexivity.
Qed.

Lemma onerror_pending s : assetsPending (onerror s) = assetsPending s.
Proof.
  unfold onerror.
  destruct (eventSource _) as [src|]; [|reflexivity].
  destruct (readyState src _) as [[| |]|]; try reflexivity.
  rewrite scheduleReconnect_pending; reflexivity.
Qed.

Lemma onopen_pending s : assetsPending (onopen s) = assetsPending s.
Proof.
  unfold onopen, startPeriodicTimeSync, fetchSnapshotAndSync, updateConnectionStatus;
    unfold_browser. cbn.
  destruct (isFetchingSnapshot s); cbn; destruct (timeSyncInterval s); reflexivity.
Qed.

(** No step but the end of [init] changes the number of dice, or ends the
    wait for the assets. *)
Lemma step_dice clk ev s s' :
  ev <> EvAssetsLoaded -> step clk ev s = Some s' ->
  List.length (dice s') = List.length (dice s) /\ assetsPending s' = assetsPending s.
Proof.
  intros Hev Hstep.
  destruct ev; cbn [step] in Hstep.
  - congruence.
  - split; [exact (fireTimer_dice _ _ _ _ Hstep) | exact (fireTimer_pending _ _ _ _ Hstep)].
  - destruct (readyState src s) as [[| |]|]; try discriminate. injection Hstep as <-.
    split; [|rewrite onopen_pending; reflexivity].
    unfold onopen. cbn zeta.
    rewrite startPeriodicTimeSync_out, fetchSnapshotAndSync_out. reflexivity.
  - assert (E : s' = onerror (set_readyState src (if closed then CLOSED else CONNECTING) s))
      by (destruct (readyState src s) as [[| |]|]; try discriminate; congruence).
    subst s'. rewrite onerror_out, onerror_pending. split; reflexivity.
  - destruct (readyState src s) as [[| |]|]; try discriminate. injection Hstep as <-.
    rewrite onMessage_env. split; [apply onMessage_dice | reflexivity].
  - destruct (snapshotFetches s); [discriminate|]. injection Hstep as <-.
    unfold fetchSnapshotAndSync_resume.
    destruct res as [data|]; simp;
      [rewrite syncSnapshot_dice, syncSnapshot_env|]; split; reflexivity.
  - destruct (timeSyncFetches s); [discriminate|]. injection Hstep as <-.
    destruct serverNow; split; reflexivity.
  - injection Hstep as <-. unfold onVisibilityChange, fetchSnapshotAndSync. cbn.
    destruct hidden; cbn; [simp; split; reflexivity|].
    destruct (isFetchingSnapshot s); split; reflexivity.
  - injection Hstep as <-.
    unfold reconnect, connectSSE, updateConnectionStatus, set_readyState.
    destruct (eventSource s); split; reflexivity.
  - injection Hstep as <-.
    unfold onBeforeUnload, stopPeriodicTimeSync, set_readyState; unfold_browser.
    run_game; split; reflexivity.
Qed.

Lemma step_dice_ok clk ev s s' : dice_ok s -> step clk ev s = Some s' -> dice_ok s'.
Proof.
  intros [Hle Hp] Hstep. unfold dice_ok.
  assert (Hcase : ev = EvAssetsLoaded \/ ev <> EvAssetsLoaded)
    by (destruct ev; (left; reflexivity) || (right; discriminate)).
  destruct Hcase as [-> | Hne].
  - cbn [step] in Hstep. destruct (assetsPending s) eqn:E; [|discriminate].
    injection Hstep as <-.
    destruct (init_resume_parts s) as (b & _ & He & Hl).
    rewrite He. rewrite (Hp eq_refl) in Hl. split; [exact Hl | discriminate].
  - destruct (step_dice clk ev s s' Hne Hstep) as [E1 E2]. rewrite E1, E2.
    split; [exact Hle|]. intros H. apply length_zero_iff_nil.
    rewrite E1, (Hp H). reflexivity.
Qed.

(** Every step keeps the invariant. *)
Lemma step_Inv clk ev s s' : Inv s -> step clk ev s = Some s' -> Inv s'.
Proof.
  intros (Hwf & Hf & Hd) Hstep. unfold Inv.
  pose proof (step_dice_ok clk ev s s' Hd Hstep) as Hd'.
  cut (wf (tm s') /\ fetch_ok s'); [tauto|]. clear Hd Hd'.
  destruct ev; cbn [step] in Hstep.
  - (* the assets are loaded *)
    destruct (assetsPending s); [|discriminate]. injection Hstep as <-.
    destruct (init_resume_parts s) as (b & Ht & He & _).
    unfold fetch_ok. rewrite Ht, He.
    split; [destruct b; auto with wf | exact Hf].
  - (* a timer fires *)
    unfold fetch_ok in *.
    rewrite (fireTimer_fetch _ _ _ _ Hstep).
    split; [exact (fireTimer_wf _ _ _ _ Hwf Hstep) | assumption].
  - (* open *)
    destruct (readyState src s) as [[| |]|]; try discriminate. injection Hstep as <-.
    unfold onopen. cbn zeta. split.
    + apply startPeriodicTimeSync_wf. rewrite fetchSnapshotAndSync_tm. exact Hwf.
    + unfold fetch_ok. rewrite startPeriodicTimeSync_fetch.
      apply (fetchSnapshotAndSync_ok
               (updateConnectionStatus true None
                  (set_reconnectAttempts 0 (set_readyState src OPEN s)))).
      exact Hf.
  - (* error *)
    assert (E : s' = onerror (set_readyState src (if closed then CLOSED else CONNECTING) s))
      by (destruct (readyState src s) as [[| |]|]; try discriminate; congruence).
    subst s'. unfold fetch_ok.
    rewrite onerror_fetch.
    split; [apply onerror_wf; exact Hwf | assumption].
  - (* message *)
    destruct (readyState src s) as [[| |]|]; try discriminate. injection Hstep as <-.
    unfold fetch_ok. rewrite onMessage_env.
    split; [apply onMessage_wf; exact Hwf | assumption].
  - (* snapshot response *)
    unfold fetch_ok in *.
    destruct (snapshotFetches s) as [|n] eqn:Hn; [discriminate|]. injection Hstep as <-.
    unfold fetchSnapshotAndSync_resume.
    destruct (isFetchingSnapshot s); [|discriminate]. injection Hf as ->.
    destruct res as [data|]; simp.
    + rewrite syncSnapshot_env. cbn.
      split; [apply syncSnapshot_wf; exact Hwf | reflexivity].
    + split; [exact Hwf | reflexivity].
  - (* time reference response *)
    destruct (timeSyncFetches s); [discriminate|]. injection Hstep as <-.
    destruct serverNow; (split; [exact Hwf | exact Hf]).
  - (* visibility *)
    injection Hstep as <-. unfold onVisibilityChange. cbn.
    destruct hidden; cbn.
    + unfold fetch_ok. simp. split; [auto with wf | assumption].
    + rewrite fetchSnapshotAndSync_tm.
      split; [exact Hwf |].
      apply (fetchSnapshotAndSync_ok (set_documentHidden false s)). exact Hf.
  - (* manual reconnect *)
    injection Hstep as <-.
    unfold reconnect, connectSSE, updateConnectionStatus, set_readyState.
    destruct (eventSource s); (split; [exact Hwf | exact Hf]).
  - (* unload *)
    injection Hstep as <-.
    unfold onBeforeUnload, stopPeriodicTimeSync, set_readyState, fetch_ok in *; unfold_browser.
    run_game; (split; [auto 8 with wf | assumption]).
Qed.

Lemma init_Inv : Inv init_state.
Proof.
  split; [apply wfb_wf; reflexivity | split; [reflexivity|]].
  split; [apply Nat.le_0_l | reflexivity].
Qed.

Lemma run_Inv tr : forall s s', Inv s -> run tr s = Some s' -> Inv s'.
Proof.
  induction tr as [|[clk ev] tr IH]; intros s s' Hs; cbn [run].
  - intros E; injection E as <-; exact Hs.
  - destruct (step clk ev s) as [s1|] eqn:Hstep; [|discriminate].
    apply IH. exact (step_Inv _ _ _ _ Hs Hstep).
Qed.

Lemma reachable_Inv s : reachable s -> Inv s.
Proof. intros [tr Htr]. exact (run_Inv tr _ _ init_Inv Htr). Qed.

(** ** Single-flight snapshot (C8) *)

(** C8: in every reachable state at most one snapshot request is outstanding,
    and the flag is up exactly while one is; a call made while the flag is up
    returns the state unchanged; a call made while it is down raises the flag
    and issues the one request; and when the response arrives, decoded or
    failed, the flag is down and no request is outstanding. *)
Theorem single_flight_snapshot (s : State) (Hr : reachable s) :
  (snapshotFetches s <= 1)%nat /\
  (isFetchingSnapshot s = true <-> snapshotFetches s = 1%nat) /\
  (isFetchingSnapshot s = true -> fetchSnapshotAndSync s = s) /\
  (isFetchingSnapshot s = false ->
   isFetchingSnapshot (fetchSnapshotAndSync s) = true /\
   snapshotFetches (fetchSnapshotAndSync s) = 1%nat) /\
  (forall clk res s',
      step clk (EvSnapshotResponse res) s = Some s' ->
      isFetchingSnapshot s' = false /\ snapshotFetches s' = 0%nat).
Proof.
  pose proof (reachable_Inv s Hr) as Hinv.
  destruct Hinv as (_ & Hf & _). unfold fetch_ok in Hf.
  split; [destruct (isFetchingSnapshot s); lia|].
  split; [destruct (isFetchingSnapshot s); split; intros; congruence|].
  split; [intros E; unfold fetchSnapshotAndSync; rewrite E; reflexivity|].
  split.
  - intros E. unfold fetchSnapshotAndSync. rewrite E in *. cbn. rewrite Hf. split; reflexivity.
  - intros clk res s' Hstep.
    assert (Hinv' : Inv s') by (apply (step_Inv _ _ _ _ (reachable_Inv s Hr) Hstep)).
    destruct Hinv' as (_ & Hf' & _). unfold fetch_ok in Hf'.
    cbn [step] in Hstep. destruct (snapshotFetches s); [discriminate|].
    injection Hstep as <-. unfold fetchSnapshotAndSync_resume in *.
    cbn in *. split; [reflexivity | exact Hf'].
Qed.

Lemma single_flight_snapshot_witness :
  exists s,
    run trace_open init_state = Some s /\
    isFetchingSnapshot s = true /\
    snapshotFetches s = 1%nat /\
    fetchSnapshotAndSync s = s /\
    (forall s', step 1000 (EvSnapshotResponse (Some scheduledSnapshot)) s = Some s' ->
                isFetchingSnapshot s' = false /\ snapshotFetches s' = 0%nat) /\
    (forall s', step 1000 (EvSnapshotResponse None) s = Some s' ->
                isFetchingSnapshot s' = false /\ snapshotFetches s' = 0%nat).
Proof.
  eexists. split; [vm_compute; reflexivity|].
  match goal with
  | |- isFetchingSnapshot ?s = true /\ _ =>
      assert (Hr : reachable s) by (exists trace_open; vm_compute; reflexivity);
      destruct (single_flight_snapshot s Hr) as (H1 & H2 & H3 & H4 & H5)
  end.
  split; [reflexivity|]. split; [apply H2; reflexivity|].
  split; [apply H3; reflexivity|].
  split; intros s' Hstep; exact (H5 1000 _ s' Hstep).
Defined.

(** ** Dice values (C10) *)

(** C10, as stated, fails for [updateDiceToValues]: with 7 as its first entry
    (truthy, and not a face) the first die gets 7 and the call throws there,
    so the second die does not get the 6 the array has for it: the five dice
    after the first keep what they showed, and the array is not stored. *)
Lemma dice_value_defaulting_counterexample :
  let values := [Some 7; Some 6; Some 5; Some 4; Some 3; Some 2] in
  let r := updateDiceToValues values loaded_state in
  dice loaded_state = [1; 2; 3; 4; 5; 6] /\
  snd r = false /\
  dice (fst r) = [7; 2; 3; 4; 5; 6] /\
  dice (fst r) <> map (fun i => or_one (arr_get values i)) (seq 0 6) /\
  targetValues (fst r) = targetValues loaded_state.
Proof. vm_compute. repeat split. discriminate. Qed.

(** C10, amended: for an array whose entries at the six dice are faces or
    falsy, [updateDiceToValues] returns, stores the array and gives each of
    the six dice the entry at its index when that entry is truthy and 1
    otherwise; [startRolling] assigns the targets so for every array (short,
    with zeros, with holes, with entries that are not faces); no target so
    assigned is zero; and the result overlay gets one symbol for each of the
    first six entries whose value lies in 1..6, in order, and nothing for
    the others. *)
Theorem dice_value_defaulting (values : list (option Z)) (s : State)
    (Hsix : List.length (dice s) = 6%nat) :
  let target i :=
    match arr_get values i with
    | Some v => if v =? 0 then 1 else v
    | None => 1
    end in
  (forallb isFace (map target (seq 0 6)) = true ->
   snd (updateDiceToValues values s) = true /\
   dice (fst (updateDiceToValues values s)) = map target (seq 0 6) /\
   targetValues (fst (updateDiceToValues values s)) = values) /\
  dice (startRolling values s) = map target (seq 0 6) /\
  Forall (fun v => v <> 0) (map target (seq 0 6)) /\
  resultSymbols (buildResultSymbols values s)
  = flat_map
      (fun i =>
         match arr_get values i with
         | Some v => if (1 <=? v) && (v <=? 6) then [v] else []
         | None => []
         end) (seq 0 6) /\
  Forall (fun v => 1 <= v <= 6) (resultSymbols (buildResultSymbols values s)).
Proof.
  intros target.
  split.
  { intros Hf.
    assert (Ha : allFaces values (List.length (dice s)) = true) by (rewrite Hsix; exact Hf).
    rewrite updateDiceToValues_eq, Ha. cbn [fst snd].
    split; [reflexivity|]. split; [|reflexivity].
    simp. rewrite (shown_all values (dice s) Ha), Hsix. reflexivity. }
  split; [simp; rewrite Hsix; reflexivity|].
  split.
  - apply Forall_forall. intros v Hv.
    apply in_map_iff in Hv as [i [<- _]]. unfold target.
    destruct (arr_get values i) as [z|]; [|discriminate].
    destruct (z =? 0) eqn:Ez; [discriminate|]. apply Z.eqb_neq; exact Ez.
  - simp. split; [reflexivity|].
    unfold symbolsOf. apply Forall_forall. intros v Hv.
    apply in_flat_map in Hv as [i [_ Hv]].
    destruct (arr_get values i) as [z|]; [|destruct Hv].
    destruct ((1 <=? z) && (z <=? 6)) eqn:Ez; [|destruct Hv].
    destruct Hv as [<-|[]]. apply andb_prop in Ez as [H1 H2].
    apply Z.leb_le in H1, H2. lia.
Qed.

Lemma dice_value_defaulting_witness :
  dice (fst (updateDiceToValues [Some 3; Some 0; None; Some 5] loaded_state))
  = [3; 1; 1; 5; 1; 1].
Proof.
  refine (proj1 (proj2 (proj1 (dice_value_defaulting [Some 3; Some 0; None; Some 5]
                                 loaded_state _) _))); reflexivity.
Defined.

(** In every reachable state there are at most six dice, and none while the
    assets load. *)
Lemma reachable_at_most_six_dice (s : State) :
  reachable s ->
  (List.length (dice s) <= 6)%nat /\ (assetsPending s = true -> dice s = []).
Proof. intros Hr. exact (proj2 (proj2 (reachable_Inv s Hr))). Qed.

(** ** Reconnect backoff (C9) *)

Lemma noConnect_filter (h : Handles) (p : Timer -> bool) :
  noConnect h -> noConnect (tm_set_timers (filter p (tm_timers h)) h).
Proof.
  unfold noConnect; cbn; intros H. apply Forall_forall; intros t Ht.
  apply filter_In in Ht as [Ht _]. exact (proj1 (Forall_forall _ _) H t Ht).
Qed.

Lemma noConnect_h_add (h : Handles) (k : TimerKind) (cb : Callback) :
  isConnectCb cb = false -> noConnect h -> noConnect (h_add k cb h).
Proof.
  unfold noConnect; cbn; intros Hc H. apply Forall_app; split; [exact H|].
  constructor; [exact Hc|constructor].
Qed.

Lemma noConnect_h_clearCountdownFrame (h : Handles) :
  noConnect h -> noConnect (h_clearCountdownFrame h).
Proof.
  intros H. unfold h_clearCountdownFrame.
  destruct (tm_countdownHandle h); [|exact H].
  apply (noConnect_filter h) with (p := fun t =>
    negb ((t_id t =? n)%nat
          && match tm_countdownHandleMode h with
             | Some raf => isFrame (t_kind t)
             | _ => negb (isFrame (t_kind t))
             end)) in H.
  exact H.
Qed.

Lemma noConnect_h_queueCountdownFrame (h : Handles) (hidden : bool) T l d :
  noConnect h -> noConnect (h_queueCountdownFrame hidden (CbCountdown T l d) h).
Proof.
  intros H. apply noConnect_h_clearCountdownFrame in H.
  unfold h_queueCountdownFrame. cbn zeta.
  apply (noConnect_h_add _ (if hidden then ByTimeout 100 else ByFrame) (CbCountdown T l d))
    in H; [|reflexivity].
  unfold noConnect in *; cbn in *; exact H.
Qed.

Lemma noConnect_h_clearWaiting (h : Handles) : noConnect h -> noConnect (h_clearWaiting h).
Proof.
  intros H. unfold h_clearWaiting. destruct (tm_waitingStateTimeout h); [|exact H].
  apply (noConnect_filter h) with
    (p := fun t => negb ((t_id t =? n)%nat && negb (isFrame (t_kind t)))) in H.
  exact H.
Qed.

Lemma noConnect_h_showWaitingState (h : Handles) (active : bool) :
  noConnect h -> noConnect (h_showWaitingState active h).
Proof.
  intros H. unfold h_showWaitingState, h_setWaiting. destruct active.
  - apply noConnect_h_clearWaiting; exact H.
  - apply noConnect_h_clearWaiting in H.
    apply (noConnect_h_add _ (ByTimeout 2000) CbWaiting) in H; [|reflexivity].
    unfold noConnect in *; cbn in *; exact H.
Qed.

Create HintDb noconn.
#[local] Hint Resolve noConnect_filter noConnect_h_add noConnect_h_clearCountdownFrame
  noConnect_h_queueCountdownFrame noConnect_h_clearWaiting noConnect_h_showWaitingState
  : noconn.

Lemma syncSnapshot_noConnect clk data s :
  noConnect (tm s) -> noConnect (tm (syncSnapshot clk data s)).
Proof. intros H. unfold syncSnapshot; destruct data; run_game; auto 8 with noconn. Qed.

Lemma fireTimer_terminal clk h s s' :
  noConnect (tm s) -> fireTimer clk h s = Some s' ->
  noConnect (tm s') /\ conn s' = conn s.
Proof.
  intros Hno. unfold fireTimer.
  destruct (find (fun t => (t_id t =? h)%nat) (timers s)) as [t|] eqn:Hfind; [|discriminate].
  intros E; injection E as <-.
  apply find_id_In in Hfind as [Hin _].
  pose proof (proj1 (Forall_forall _ _) Hno t Hin) as Hcb.
  cbn beta in Hcb. revert Hcb.
  destruct (t_cb t); intros Hcb; try discriminate; cbn [runCallback];
    run_game; (split; [auto 8 with noconn | reflexivity]).
  exact (noConnect_filter (tm s) _ Hno).
Qed.

Lemma closed_readyState (src : nat) (s : State) :
  Forall (fun r => r = CLOSED) (sources s) ->
  readyState src s = Some CLOSED \/ readyState src s = None.
Proof.
  intros H. unfold readyState. destruct (nth_error (sources s) src) as [r|] eqn:E.
  - left. apply nth_error_In in E. rewrite (proj1 (Forall_forall _ _) H r E). reflexivity.
  - right; reflexivity.
Qed.

Lemma terminal_conn_persists clk ev s s' :
  terminal s -> ev <> EvReconnect -> step clk ev s = Some s' ->
  (maxReconnectAttempts <= reconnectAttempts s' /\
   Forall (fun r => r = CLOSED) (sources s') /\
   noConnect (tm s')) /\
  isConnected s' = isConnected s /\
  connectionStatus s' = connectionStatus s.
Proof.
  intros (Hl & Hmax & Hclosed & Hno) Hev Hstep.
  destruct ev; cbn [step] in Hstep.
  - rewrite Hl in Hstep; discriminate.
  - destruct (fireTimer_terminal _ _ _ _ Hno Hstep) as [Hno' Hc].
    rewrite !Hc. auto.
  - destruct (closed_readyState src s Hclosed) as [E|E]; rewrite E in Hstep; discriminate.
  - destruct (closed_readyState src s Hclosed) as [E|E]; rewrite E in Hstep; discriminate.
  - destruct (closed_readyState src s Hclosed) as [E|E]; rewrite E in Hstep; discriminate.
  - destruct (snapshotFetches s); [discriminate|]. injection Hstep as <-.
    unfold fetchSnapshotAndSync_resume. destruct res as [data|]; simp.
    + rewrite !syncSnapshot_env. cbn.
      repeat split; auto. apply syncSnapshot_noConnect. exact Hno.
    + repeat split; auto.
  - destruct (timeSyncFetches s); [discriminate|]. injection Hstep as <-.
    destruct serverNow; cbn; repeat split; auto.
  - injection Hstep as <-. unfold onVisibilityChange, fetchSnapshotAndSync.
    run_game; repeat split; auto with noconn.
  - congruence.
  - injection Hstep as <-.
    unfold onBeforeUnload, stopPeriodicTimeSync, set_readyState; unfold_browser.
    run_game; repeat split; auto 8 using set_nth_closed with noconn.
Qed.

(** The terminal failure persists through every event but the manual
    reconnect. *)
Lemma terminal_persists clk ev s s' :
  terminal s -> ev <> EvReconnect -> step clk ev s = Some s' ->
  terminal s' /\
  isConnected s' = isConnected s /\
  connectionStatus s' = connectionStatus s.
Proof.
  intros Ht Hev Hstep.
  destruct (terminal_conn_persists clk ev s s' Ht Hev Hstep) as [Hc Hs].
  split; [|exact Hs]. split; [|exact Hc].
  assert (Hne : ev <> EvAssetsLoaded)
    by (intros ->; cbn [step] in Hstep; rewrite (proj1 Ht) in Hstep; discriminate).
  rewrite (proj2 (step_dice clk ev s s' Hne Hstep)). exact (proj1 Ht).
Qed.



(** * Further properties of the handlers *)

(** ** The page a tick paints *)

Lemma ceil_div_spec (a : Z) :
  1000 * (ceil_div a 1000 - 1) < a <= 1000 * ceil_div a 1000.
Proof.
  unfold ceil_div.
  pose proof (Z.div_mod (- a) 1000 ltac:(lia)) as E.
  pose proof (Z.mod_pos_bound (- a) 1000 ltac:(lia)) as B.
  lia.
Qed.

Lemma ratio_le (r d : Z) (p : positive) :
  0 < d ->
  Qle_bool (inject_Z r / inject_Z d) (1 # p) = (Z.pos p * r <=? d).
Proof.
  intros Hd.
  assert (Hd' : (0 < inject_Z d)%Q) by (change (inject_Z 0 < inject_Z d)%Q; rewrite <- Zlt_Qlt; lia).
  assert (E : (inject_Z r / inject_Z d <= 1 # p)%Q <-> Z.pos p * r <= d).
  { split; intros H.
    - apply (Qmult_le_compat_r _ _ (inject_Z d)) in H; [|apply Qlt_le_weak; exact Hd'].
      unfold Qdiv in H.
      rewrite <- Qmult_assoc, (Qmult_comm (/ inject_Z d)), Qmult_inv_r, Qmult_1_r in H
        by (intros E0; rewrite E0 in Hd'; discriminate).
      unfold Qle in H. cbv [Qmult inject_Z Qnum Qden] in H. lia.
    - apply Qle_shift_div_r; [exact Hd'|].
      unfold Qle. cbv [Qmult inject_Z Qnum Qden]. lia. }
  destruct (Z.pos p * r <=? d) eqn:E1.
  - apply Qle_bool_iff, E. apply Z.leb_le; exact E1.
  - apply not_true_is_false. intros H. apply Qle_bool_iff, E in H. apply Z.leb_gt in E1. lia.
Qed.

(** X1: a tick with time remaining shows the remaining time in whole seconds
    rounded up (at least 1), "Get ready..." in place of the label during the
    last three seconds, green while more than half of the denominator
    remains, yellow above a quarter and red below, and it leaves the state
    field alone. *)
Theorem tick_display (clk T : Z) (label : string) (total : option Z) (s : State)
    (Hrem : 0 < remainingAt T (getServerTime clk s)) :
  let r := remainingAt T (getServerTime clk s) in
  let d := durationAt total T (getServerTime clk s) in
  let s' := animateCountdownToTime clk T label total s in
  exists n,
    countdownText s' = string_of_Z n /\
    1 <= n /\ 1000 * (n - 1) < r <= 1000 * n /\
    statusText s' = (if r <=? 3000 then "Get ready..."%string else label) /\
    stroke s' = (if 2 * r <=? d
                 then if 4 * r <=? d then "#ef4444"%string else "#facc15"%string
                 else "#4ade80"%string) /\
    gameState s' = gameState s.
Proof.
  intros r d s'. subst r d s'. unfold getServerTime in *.
  set (r := remainingAt T (clk + serverTimeOffset s)) in *.
  pose proof (ceil_div_spec r) as Hc.
  exists (ceil_div r 1000).
  assert (Hpos : (0 <? r) = true) by (apply Z.ltb_lt; exact Hrem).
  simp. fold r. rewrite Hpos. unfold d_tick. cbn.
  fold r.
  split; [rewrite Z.max_r by lia; reflexivity|].
  split; [lia|]. split; [exact Hc|].
  split.
  - destruct (r <=? 3000) eqn:E.
    + apply Z.leb_le in E.
      replace (ceil_div r 1000 <=? 3) with true by (symmetry; apply Z.leb_le; lia).
      replace (0 <? ceil_div r 1000) with true by (symmetry; apply Z.ltb_lt; lia).
      reflexivity.
    + apply Z.leb_gt in E.
      replace (ceil_div r 1000 <=? 3) with false by (symmetry; apply Z.leb_gt; lia).
      reflexivity.
  - pose proof (durationAt_bounds total T (clk + serverTimeOffset s)) as [Hd1 _].
    split; [|reflexivity].
    rewrite (ratio_le r _ 2), (ratio_le r _ 4) by lia.
    change (Z.pos 2) with 2; change (Z.pos 4) with 4.
    destruct (2 * r <=? _), (4 * r <=? _); reflexivity.
Qed.

Lemma tick_display_witness :
  exists s,
    run trace_scheduled init_state = Some s /\
    countdownText (animateCountdownToTime 2500 5000 "Round starting in" (Some 5000) s)
    = "3"%string.
Proof.
  eexists. split; [vm_compute; reflexivity|].
  match goal with
  | |- countdownText (animateCountdownToTime ?clk ?T ?l ?tot ?s) = _ =>
      assert (Hr : remainingAt T (getServerTime clk s) = 2500) by (vm_compute; reflexivity);
      destruct (tick_display clk T l tot s) as (n & E & H1 & H2 & _);
        [rewrite Hr; lia|];
      cbv zeta in H2; rewrite Hr in H2
  end.
  rewrite E. replace n with 3 by lia. reflexivity.
Defined.

(** ** Progress along one countdown *)

Lemma durationAt_stable (T d t : Z) :
  1 <= d -> remainingAt T t <= d -> durationAt (Some d) T t = d.
Proof. unfold durationAt; cbn [nullish]; lia. Qed.

Lemma Qdiv_le_compat (a b d : Z) :
  0 < d -> a <= b -> (inject_Z a / inject_Z d <= inject_Z b / inject_Z d)%Q.
Proof.
  intros Hd Hab.
  assert (Hd' : (0 < inject_Z d)%Q) by (change (inject_Z 0 < inject_Z d)%Q; rewrite <- Zlt_Qlt; lia).
  apply Qmult_le_compat_r; [rewrite <- Zle_Qle; exact Hab|].
  apply Qlt_le_weak, Qinv_lt_0_compat; exact Hd'.
Qed.



(** ** The server clock *)

Lemma onMessage_offset clk m s n :
  message_serverNow m = Some n -> serverTimeOffset (onMessage clk m s) = n - clk.
Proof.
  destruct m as [[d|]|[d|]|[d|]|[d|]|[d|]]; cbn [message_serverNow]; intros E;
    try discriminate; injection E as <-;
    unfold onMessage, onLastOutcome, onRoundScheduled, onRoundStarted, onRoundResult,
      onRoundCancelled; run_game; reflexivity.
Qed.

Lemma syncSnapshot_offset clk data s :
  serverTimeOffset (syncSnapshot clk data s) = snap_serverNow data - clk.
Proof. unfold syncSnapshot; destruct data; run_game; reflexivity. Qed.

(** X3: after a decoded message, a snapshot or a time reference response
    handled at local time [clk], the server time read at local time [clk'] is
    the payload's [serverNow] plus the local time elapsed; a message whose
    body does not decode leaves the whole state as it was. *)
Theorem server_clock_follows_payload (clk clk' : Z) (s : State) :
  (forall m n, message_serverNow m = Some n ->
     getServerTime clk' (onMessage clk m s) = n + (clk' - clk)) /\
  (forall m, message_serverNow m = None -> onMessage clk m s = s) /\
  (forall data,
     getServerTime clk' (syncSnapshot clk data s) = snap_serverNow data + (clk' - clk)) /\
  (forall res s', step clk (EvTimeSyncResponse res) s = Some s' ->
     getServerTime clk' s' = match res with
                             | Some n => n + (clk' - clk)
                             | None => getServerTime clk' s
                             end).
Proof.
  split; [|split; [|split]].
  - intros m n E. unfold getServerTime. rewrite (onMessage_offset clk m s n E). lia.
  - intros m E. destruct m as [[d|]|[d|]|[d|]|[d|]|[d|]]; try discriminate; reflexivity.
  - intros data. unfold getServerTime. rewrite syncSnapshot_offset. lia.
  - intros res s' Hstep. cbn [step] in Hstep.
    destruct (timeSyncFetches s); [discriminate|]. injection Hstep as <-.
    destruct res; unfold getServerTime; cbn; lia.
Qed.

(** ** Superseded timers *)

Lemma noWaiting_cbs (h : Handles) : noWaiting h -> waitingCbs h = [].
Proof.
  unfold noWaiting, waitingCbs. induction (tm_timers h) as [|t l IH]; intros H.
  - reflexivity.
  - inversion H as [|? ? H1 H2]; subst. rewrite map_cons.
    unfold filter; fold (filter isWaitingCb). rewrite H1. apply IH; exact H2.
Qed.

Lemma noWaiting_filter (h : Handles) (p : Timer -> bool) :
  noWaiting h -> noWaiting (tm_set_timers (filter p (tm_timers h)) h).
Proof.
  unfold noWaiting; cbn; intros H. apply Forall_forall; intros t Ht.
  apply filter_In in Ht as [Ht _]. exact (proj1 (Forall_forall _ _) H t Ht).
Qed.

Lemma noWaiting_h_add (h : Handles) (k : TimerKind) (cb : Callback) :
  isWaitingCb cb = false -> noWaiting h -> noWaiting (h_add k cb h).
Proof.
  unfold noWaiting; cbn; intros Hc H. apply Forall_app; split; [exact H|].
  constructor; [exact Hc|constructor].
Qed.

Lemma noWaiting_h_clearCountdownFrame (h : Handles) :
  noWaiting h -> noWaiting (h_clearCountdownFrame h).
Proof.
  intros H. unfold h_clearCountdownFrame.
  destruct (tm_countdownHandle h); [|exact H].
  apply (noWaiting_filter h) with (p := fun t =>
    negb ((t_id t =? n)%nat
          && match tm_countdownHandleMode h with
             | Some raf => isFrame (t_kind t)
             | _ => negb (isFrame (t_kind t))
             end)) in H.
  exact H.
Qed.

Lemma noWaiting_h_queueCountdownFrame (h : Handles) (hidden : bool) T l d :
  noWaiting h -> noWaiting (h_queueCountdownFrame hidden (CbCountdown T l d) h).
Proof.
  intros H. apply noWaiting_h_clearCountdownFrame in H.
  unfold h_queueCountdownFrame. cbn zeta.
  apply (noWaiting_h_add _ (if hidden then ByTimeout 100 else ByFrame) (CbCountdown T l d))
    in H; [|reflexivity].
  unfold noWaiting in *; cbn in *; exact H.
Qed.

Lemma noWaiting_after_clear (h : Handles) :
  wf h -> noWaiting (h_clearWaiting (h_clearCountdownFrame h)).
Proof. intros Hwf. apply h_clearWaiting_noWaiting, wf_h_clearCountdownFrame, Hwf. Qed.

Lemma noCountdown_after_clear (h : Handles) :
  wf h -> noCountdown (h_clearWaiting (h_clearCountdownFrame h)).
Proof. intros Hwf. auto with wf. Qed.

Create HintDb nowait.
#[local] Hint Resolve noWaiting_filter noWaiting_h_add noWaiting_h_clearCountdownFrame
  noWaiting_h_queueCountdownFrame noWaiting_after_clear h_clearWaiting_noWaiting : nowait.

(** Clearing the countdown frame and the waiting fallback a second time
    changes nothing. *)
Lemma clear_twice (h : Handles) :
  h_clearWaiting (h_clearCountdownFrame (h_clearWaiting (h_clearCountdownFrame h)))
  = h_clearWaiting (h_clearCountdownFrame h).
Proof.
  unfold h_clearWaiting, h_clearCountdownFrame.
  destruct h as [ts n [c|] m [w|]]; cbn; reflexivity.
Qed.
#[local] Hint Rewrite clear_twice : frame.




(** X5: a [round.result] event enters [rolling], stores the outcome, gives
    every die its target, counts the roll, hides both overlays, keeps the
    cancellation horizon, and leaves no countdown callback and no waiting
    fallback pending.  When every target is a face, one reveal is due after
    2500 + 100 per die + 500 ms; when one is not, [rollAllDice] throws and no
    reveal is ever due. *)
Theorem round_result_rolls (clk : Z) (data : RoundResultEvent) (s : State)
    (Hwf : wf (tm s)) :
  let values := rre_diceValues data in
  let targets := map (fun i => or_one (arr_get values i)) (seq 0 (List.length (dice s))) in
  let cleared := h_clearWaiting (h_clearCountdownFrame (tm s)) in
  let s' := onRoundResult clk data s in
  gameState s' = rolling /\
  targetValues s' = values /\
  currentRoundId s' = Some (rre_roundId data) /\
  dice s' = targets /\
  rollCount s' = rollCount s + 1 /\
  gameOverlayHidden s' = true /\
  resultOverlayVisible s' = false /\
  cancelledUntil s' = cancelledUntil s /\
  countdownCbs (tm s') = [] /\
  waitingCbs (tm s') = [] /\
  timers s'
  = tm_timers cleared
    ++ (if forallb isFace targets
        then [{| t_id := tm_nextHandle cleared;
                 t_kind := ByTimeout (2500 + Z.of_nat (List.length (dice s)) * 100 + 500);
                 t_cb := CbShowResult values |}]
        else []).
Proof.
  cbn zeta. unfold onRoundResult.
  repeat split; simp2; try reflexivity.
  - split_if; simp2; cbs.
  - split_if; simp2; apply noWaiting_cbs; auto 8 with nowait.
  - unfold rollDuration. split_if; unfold h_add; cbn; rewrite ?app_nil_r; reflexivity.
Qed.


Lemma round_result_rolls_witness :
  exists s,
    run trace_scheduled init_state = Some s /\
    countdownCbs
      (tm (onRoundResult 8000
             {| rre_roundId := "r1";
                rre_diceValues := [Some 6; Some 6; Some 1; Some 2; Some 3; Some 4];
                rre_serverNow := 8000 |} s)) = [].
Proof.
  eexists. split; [vm_compute; reflexivity|].
  match goal with
  | |- countdownCbs (tm (onRoundResult ?clk ?data ?s)) = _ =>
      destruct (round_result_rolls clk data s) as (_ & _ & _ & _ & _ & _ & _ & _ & H & _);
        [apply wfb_wf; reflexivity | exact H]
  end.
Defined.

(** ** A payload the dice cannot show *)

(** X6: when the last outcome of a snapshot, or a [last.outcome] event, has
    for one of the dice a value that is not a face, [updateDiceToValues]
    throws: the outcome and the clock offset are stored, but the state field,
    the round window, the page and the timers stay as they were, whatever
    the snapshot's state; the snapshot flag is cleared all the same. *)
Theorem payload_with_bad_die_dropped (clk : Z) (s : State) :
  (forall data : SnapshotResponse,
     allFaces (lo_diceValues (snap_lastOutcome data)) (List.length (dice s)) = false ->
     let s' := fetchSnapshotAndSync_resume clk (Some data) s in
     rnd s' = rnd_set_serverTimeOffset (snap_serverNow data - clk) (rnd s) /\
     dom s' = dom s /\
     tm s' = tm s /\
     targetValues s' = lo_diceValues (snap_lastOutcome data) /\
     currentRoundId s' = lo_roundId (snap_lastOutcome data) /\
     isFetchingSnapshot s' = false) /\
  (forall data : LastOutcomeEvent,
     allFaces (loe_diceValues data) (List.length (dice s)) = false ->
     let s' := onLastOutcome clk data s in
     rnd s' = rnd_set_serverTimeOffset (loe_serverNow data - clk) (rnd s) /\
     dom s' = dom s /\
     tm s' = tm s /\
     targetValues s' = loe_diceValues data /\
     currentRoundId s' = loe_roundId data).
Proof.
  split.
  - intros data Hbad. cbn zeta. unfold fetchSnapshotAndSync_resume, syncSnapshot.
    destruct data; cbn [snap_lastOutcome snap_serverNow] in *;
      simp; rewrite ?Hbad; simp; repeat split; reflexivity.
  - intros data Hbad. cbn zeta. unfold onLastOutcome.
    simp; rewrite ?Hbad; simp; repeat split; reflexivity.
Qed.

Lemma payload_with_bad_die_dropped_witness :
  gameState (fetchSnapshotAndSync_resume 1000 (Some (IDLE badOutcome 1000)) loaded_state)
  = idle.
Proof.
  destruct (proj1 (payload_with_bad_die_dropped 1000 loaded_state)
              (IDLE badOutcome 1000) eq_refl) as (H & _).
  rewrite H. reflexivity.
Defined.

(** ** The handles of the reachable states *)


